(** * Animal Studios API: a shallow embedding of [main.py]

    The program is a FastAPI application: a bearer-token gate
    ([require_admin]), an identifier codec ([PyObjectId.validate],
    [to_obj]), a registry of collection names ([COLLECTIONS],
    [get_collection]) and five generic handlers that map HTTP verbs to
    operations of a document database.

    Conventions of the embedding.
    - Python [str] values are Rocq strings; each character is a code
      point below 256 (HTTP header values reach the handlers decoded that
      way; collection names and identifiers are ASCII).
    - A handler is a computation in a state-and-exception monad over the
      database; an exception that is not an [HTTPException] leaves the
      handler unhandled and the framework answers 500.
    - [datetime.now] is a clock reading handed to the handler.
    - The database is taken to be connected. *)

From Stdlib Require Import ZArith NArith Ascii String List Bool Lia.
From stdpp Require Import base option list gmap strings fin_maps.

Local Open Scope string_scope.
Set Warnings "-register-all".


(** ** Python string primitives used by the program *)

Module PyStr.

(** [str.isspace] on one character, for code points below 256. *)
Definition isspace (c : ascii) : bool :=
  let n := N_of_ascii c in
  ((9 <=? n) && (n <=? 13) || (28 <=? n) && (n <=? 32)
   || (n =? 133) || (n =? 160))%N.

(** [str.lower] on one character, for code points below 256: the ASCII
    capitals and the Latin-1 capitals (all of 0xC0..0xDE but the
    multiplication sign 0xD7) move up by 32. *)
Definition lower_char (c : ascii) : ascii :=
  let n := N_of_ascii c in
  if ((65 <=? n) && (n <=? 90)
      || (192 <=? n) && (n <=? 222) && negb (n =? 215))%N
  then ascii_of_N (n + 32) else c.

Fixpoint lower (s : string) : string :=
  match s with
  | EmptyString => EmptyString
  | String c s' => String (lower_char c) (lower s')
  end.

(** The word collected so far, kept in reverse, becomes a part. *)
Definition flush (word : list ascii) : list string :=
  match word with
  | [] => []
  | _ => [string_of_list_ascii (rev word)]
  end.

Fixpoint split_aux (word : list ascii) (s : string) : list string :=
  match s with
  | EmptyString => flush word
  | String c s' =>
      if isspace c then (flush word ++ split_aux [] s')%list
      else split_aux (c :: word) s'
  end.

(** [s.split()]: the maximal runs of non-whitespace characters. *)
Definition split (s : string) : list string := split_aux [] s.

Definition no_space (s : string) : Prop :=
  Forall (fun c => isspace c = false) (list_ascii_of_string s).

End PyStr.

(** ** Exceptions and results *)

Inductive exn : Type :=
| HTTPException (status_code : Z) (detail : string)
| ValueError (msg : string).

Inductive result (A : Type) : Type :=
| Return (a : A)
| Raise (e : exn).
Arguments Return {A} a.
Arguments Raise {A} e.

(** ** Values and documents *)

(** What a JSON body can hold, plus the [datetime] that [update] stamps.
    A JSON number that is not an integer is carried as its IEEE-754 bit
    pattern; the program never computes with it. *)
Inductive value : Type :=
| VNull
| VBool (b : bool)
| VInt (n : Z)
| VFloat (bits : Z)
| VStr (s : string)
| VList (l : list value)
| VDict (kv : list (string * value))
| VDate (t : Z).

(** A Python [Dict[str, Any]]. *)
Abbreviation document := (gmap string value).

(** ** Schemas (lightweight request models) *)

Inductive ftype : Type :=
| TStr | TBool | TInt
| TList (t : ftype)
| TDict.

(** One annotated attribute of a pydantic model: [nullable] is
    [Optional[...]], [fdefault = None] means the field is required. *)
Record field : Type := Field {
  fname : string;
  ftyp : ftype;
  nullable : bool;
  fdefault : option value
}.

Definition model : Type := list field.

Definition req (n : string) (t : ftype) : field := Field n t false None.
Definition opt (n : string) (t : ftype) : field := Field n t true (Some VNull).

Definition Setting : model :=
  [ opt "logo_url" TStr; opt "categories" (TList TStr);
    Field "theme" TStr false (Some (VStr "orange-black")) ].

Definition AboutContent : model :=
  [ opt "history" TStr; opt "timeline" (TList TDict); opt "team" (TList TDict) ].

Definition NewsItem : model :=
  [ req "title" TStr; req "content" TStr; opt "image_url" TStr; opt "date" TStr;
    Field "featured" TBool false (Some (VBool false)); opt "order" TInt ].

Definition Film : model :=
  [ req "title" TStr; opt "poster_url" TStr; opt "length_min" TInt;
    opt "release_date" TStr; opt "fsk" TStr; opt "description" TStr;
    opt "trailer_url" TStr; opt "cast" (TList TStr); opt "crew" (TList TStr);
    Field "exclusive" TBool false (Some (VBool false)); opt "stream_url" TStr ].

Definition ProductionEntry : model :=
  [ req "phase" TStr; opt "text" TStr; opt "images" (TList TStr);
    opt "videos" (TList TStr); opt "order" TInt ].

Definition Partner : model :=
  [ req "name" TStr; opt "logo_url" TStr; opt "description" TStr; opt "url" TStr ].

Definition Application : model :=
  [ req "name" TStr; req "email" TStr; req "role" TStr; opt "message" TStr;
    opt "attachments" (TList TStr) ].

Definition COLLECTIONS : list (string * model) :=
  [ ("setting", Setting); ("about", AboutContent); ("news", NewsItem);
    ("film", Film); ("production", ProductionEntry); ("partner", Partner);
    ("application", Application) ].

(** [name in COLLECTIONS]: membership among the keys. *)
Definition in_COLLECTIONS (name : string) : bool :=
  existsb (fun kv => String.eqb name (fst kv)) COLLECTIONS.

(** What the declarations above would demand of a body, were a model ever
    instantiated from it: every required field present, every declared
    field that is present of its declared type. *)
Fixpoint has_type (t : ftype) (v : value) : bool :=
  match t, v with
  | TStr, VStr _ => true
  | TBool, VBool _ => true
  | TInt, VInt _ => true
  | TList t', VList l => forallb (has_type t') l
  | TDict, VDict _ => true
  | _, _ => false
  end.

Definition field_ok (p : document) (f : field) : bool :=
  match p !! fname f with
  | None => bool_decide (is_Some (fdefault f))
  | Some VNull => nullable f
  | Some v => has_type (ftyp f) v
  end.

Definition conforms (m : model) (p : document) : bool := forallb (field_ok p) m.

Definition missing_required (m : model) (p : document) : list string :=
  fname <$> filter (fun f => fdefault f = None /\ p !! fname f = None) m.

(** The body a model instance would dump: the payload with every absent
    declared field set to its default. *)
Definition with_defaults (m : model) (p : document) : document :=
  foldr (fun f acc =>
           match fdefault f, p !! fname f with
           | Some v, None => <[fname f := v]> acc
           | _, _ => acc
           end) p m.

(** ** Identifier codec *)

Module ObjectId.

(** An identifier holds the bytes that [bytes.fromhex] read. With 12 bytes,
    as every generated and stored one has, it is the number its 24 hex
    digits spell, below [bound]. A valid id string with whitespace in it
    gives fewer bytes; such an identifier is numbered from [bound] on, by its
    length and the number its digits spell, apart from every 12-byte one. *)
Definition t : Type := N.

Definition bound : N := 16 ^ 24.

(** [Py_ISSPACE]: the six ASCII whitespace characters. *)
Definition is_ascii_space (c : ascii) : bool :=
  let n := N_of_ascii c in
  ((9 <=? n) && (n <=? 13) || (n =? 32))%N.

Definition is_hex (c : ascii) : bool :=
  let n := N_of_ascii c in
  ((48 <=? n) && (n <=? 57) || (65 <=? n) && (n <=? 70)
   || (97 <=? n) && (n <=? 102))%N.

Definition hex_val (c : ascii) : N :=
  let n := N_of_ascii c in
  (if n <=? 57 then n - 48 else if n <=? 70 then n - 55 else n - 87)%N.

Definition hex_char (d : N) : ascii :=
  (if d <? 10 then ascii_of_N (48 + d) else ascii_of_N (87 + d))%N.

Fixpoint from_hex (acc : N) (s : string) : N :=
  match s with
  | EmptyString => acc
  | String c s' => from_hex (16 * acc + hex_val c) s'
  end.

Fixpoint to_hex (k : nat) (n : N) (tail : string) : string :=
  match k with
  | O => tail
  | S k' => to_hex k' (n / 16) (String (hex_char (n mod 16)) tail)
  end.

(** [bytes.fromhex(s)]: pairs of hex digits, with any ASCII whitespace
    before, between and after the pairs skipped; [None] where it raises. *)
Fixpoint fromhex (s : string) : option (list N) :=
  match s with
  | EmptyString => Some []
  | String c s' =>
      if is_ascii_space c then fromhex s'
      else
        match s' with
        | EmptyString => None
        | String c' s'' =>
            if is_hex c && is_hex c'
            then cons (16 * hex_val c + hex_val c')%N <$> fromhex s''
            else None
        end
  end.

(** The characters of [s] that are not ASCII whitespace. *)
Fixpoint digits (s : string) : string :=
  match s with
  | EmptyString => EmptyString
  | String c s' =>
      if is_ascii_space c then digits s' else String c (digits s')
  end.

(** The number that a sequence of bytes spells, after [acc]. *)
Definition value_of (acc : N) (bs : list N) : N :=
  fold_left (fun a b => 256 * a + b)%N bs acc.

Definition of_bytes (bs : list N) : t :=
  if (length bs =? 12)%nat then value_of 0 bs
  else (bound * (N.of_nat (length bs) + 1) + value_of 0 bs)%N.

(** [ObjectId.is_valid(v)] for a [str]: 24 characters that [bytes.fromhex]
    reads. *)
Definition is_valid (v : string) : bool :=
  (String.length v =? 24)%nat
  && match fromhex v with Some _ => true | None => false end.

(** [ObjectId(v)] for a valid [v]. *)
Definition of_str (v : string) : t :=
  match fromhex v with
  | Some bs => of_bytes bs
  | None => 0%N
  end.

(** [str(oid)]: the bytes in lower-case hex digits, 24 of them for a
    12-byte identifier. *)
Definition str (o : t) : string :=
  if (o <? bound)%N then to_hex 24 o ""
  else to_hex (2 * N.to_nat (o / bound - 1)) (o mod bound) "".

End ObjectId.

Module PyObjectId.

(** The path parameter is always a [str], so the [isinstance] branch of
    the source never applies. *)
Definition validate (v : string) : result ObjectId.t :=
  if negb (ObjectId.is_valid v) then Raise (ValueError "Invalid ObjectId")
  else Return (ObjectId.of_str v).

End PyObjectId.

(** ** The document database *)

(** A stored record: the driver hands it out as a dict whose ["_id"] key
    holds [oid] and whose other keys are [fields]. *)
Record stored : Type := Stored {
  oid : ObjectId.t;
  fields : gmap string value
}.

Inductive db_op : Type :=
| OpInsert (coll : string)
| OpFind (coll : string)
| OpFindOne (coll : string) (o : ObjectId.t)
| OpUpdateOne (coll : string) (o : ObjectId.t)
| OpDeleteOne (coll : string) (o : ObjectId.t).

(** [colls]: each collection in insertion order; [next_oid]: the source of
    fresh identifiers; [trace]: every database operation issued so far,
    latest first. *)
Record world : Type := World {
  colls : gmap string (list stored);
  next_oid : N;
  trace : list db_op
}.

Definition docs (coll : string) (w : world) : list stored :=
  default [] (colls w !! coll).

Definition log (op : db_op) (w : world) : world :=
  World (colls w) (next_oid w) (op :: trace w).

Definition set_docs (coll : string) (l : list stored) (w : world) : world :=
  World (<[coll := l]> (colls w)) (next_oid w) (trace w).

(** Whether the filter [{"_id": o}] matches [d]: the identifiers are equal.
    A stored identifier has 12 bytes, so an [o] of another length matches
    no record. *)
Definition has_oid (o : ObjectId.t) (d : stored) : bool :=
  (oid d =? o)%N && (o <? ObjectId.bound)%N.

(** [$set]: each named field takes the given value. *)
Definition set_fields (p : document) (d : stored) : stored :=
  Stored (oid d) (p ∪ fields d).

Fixpoint set_first (o : ObjectId.t) (p : document) (l : list stored)
  : option (list stored) :=
  match l with
  | [] => None
  | d :: l' =>
      if has_oid o d then Some (set_fields p d :: l')
      else cons d <$> set_first o p l'
  end.

Fixpoint delete_first (o : ObjectId.t) (l : list stored) : option (list stored) :=
  match l with
  | [] => None
  | d :: l' =>
      if has_oid o d then Some l' else cons d <$> delete_first o l'
  end.

(** ** The handler monad: database state and exceptions *)

Definition M (A : Type) : Type := world -> result A * world.

Definition ret {A} (a : A) : M A := fun w => (Return a, w).
Definition raise {A} (e : exn) : M A := fun w => (Raise e, w).
Definition bind {A B} (c : M A) (k : A -> M B) : M B :=
  fun w => match c w with
           | (Return a, w') => k a w'
           | (Raise e, w') => (Raise e, w')
           end.
Definition lift {A} (r : result A) : M A := fun w => (r, w).

Notation "'let*' x ':=' c 'in' k" := (bind c (fun x => k))
  (at level 10, x name, c at level 100, k at level 200).
Notation "c ';;;' k" := (bind c (fun _ => k))
  (at level 100, k at level 200, right associativity).

Module Coll.

(** [coll.find_one({"_id": o})] *)
Definition find_one (coll : string) (o : ObjectId.t) : M (option stored) :=
  fun w => (Return (List.find (has_oid o) (docs coll w)), log (OpFindOne coll o) w).

(** [coll.update_one({"_id": o}, {"$set": p})], giving [matched_count]. *)
Definition update_one (coll : string) (o : ObjectId.t) (p : document) : M nat :=
  fun w =>
    match set_first o p (docs coll w) with
    | None => (Return 0%nat, log (OpUpdateOne coll o) w)
    | Some l' => (Return 1%nat, log (OpUpdateOne coll o) (set_docs coll l' w))
    end.

(** [coll.delete_one({"_id": o})], giving [deleted_count]. *)
Definition delete_one (coll : string) (o : ObjectId.t) : M nat :=
  fun w =>
    match delete_first o (docs coll w) with
    | None => (Return 0%nat, log (OpDeleteOne coll o) w)
    | Some l' => (Return 1%nat, log (OpDeleteOne coll o) (set_docs coll l' w))
    end.

End Coll.

(** Modelled from the spec: [create_document] of the [database] module,
    which is not among the sources. "create(collection, record) -> id:
    assigns a new identifier; does not deduplicate"; the record is stored
    as given under the new identifier, which takes the place of any ["_id"]
    key of its own, and the identifier comes back rendered as a string. *)
Definition create_document (coll : string) (data : document) : M string :=
  fun w =>
    let o := next_oid w in
    (Return (ObjectId.str o),
     log (OpInsert coll)
       (World (<[coll := (docs coll w ++ [Stored o (delete "_id" data)])%list]> (colls w))
              (N.succ o) (trace w))).

(** Modelled from the spec: [get_documents] of the [database] module, which
    is not among the sources. "list(collection, limit): returns up to limit
    records in the store's natural (insertion) order; no filtering" (the
    handler passes the empty filter). *)
Definition get_documents (coll : string) (limit : Z) : M (list stored) :=
  fun w => (Return (take (Z.to_nat limit) (docs coll w)), log (OpFind coll) w).

(** ** Utils *)

(** [doc["id"] = str(doc.pop("_id"))]; [None] passes through. A dict from
    the driver always has its ["_id"], so it is never empty. *)
Definition to_obj (doc : option stored) : option document :=
  match doc with
  | None => None
  | Some d => Some (<["id" := VStr (ObjectId.str (oid d))]> (delete "_id" (fields d)))
  end.

(** What a handler returns, before JSON encoding. *)
Inductive body : Type :=
| JNull
| JObject (d : document)
| JArray (l : list (option document)).

Definition body_of (o : option document) : body :=
  match o with
  | None => JNull
  | Some d => JObject d
  end.

(** ** Auth *)

Definition DEFAULT_ADMIN_TOKEN : string := "animal-studios-admin-token".

Section App.

(** [ADMIN_TOKEN = os.getenv("ADMIN_TOKEN", ...)]: fixed at start-up. *)
Variable ADMIN_TOKEN : string.

Definition require_admin (authorization : option string) : result bool :=
  match authorization with
  | None | Some EmptyString =>
      Raise (HTTPException 401 "Missing Authorization header")
  | Some a =>
      let parts := PyStr.split a in
      if negb (length parts =? 2)%nat
         || negb (String.eqb (PyStr.lower (nth 0 parts "")) "bearer")
      then Raise (HTTPException 401 "Invalid Authorization header")
      else
        let token := nth 1 parts "" in
        if negb (String.eqb token ADMIN_TOKEN)
        then Raise (HTTPException 403 "Invalid token")
        else Return true
  end.

(** ** Generic helpers *)

(** [db[name]] is a handle; the name stands for it. *)
Definition get_collection (name : string) : M string :=
  if negb (in_COLLECTIONS name)
  then raise (HTTPException 404 "Unknown collection")
  else ret name.

(** [GET /api/{collection}] *)
Definition list_documents (collection : string) (limit : Z) : M body :=
  get_collection collection ;;;
  let* items := get_documents collection limit in
  ret (JArray (map (fun i => to_obj (Some i)) items)).

(** [GET /api/{collection}/{doc_id}] *)
Definition get_document (collection doc_id : string) : M body :=
  let* coll := get_collection collection in
  let* o := lift (PyObjectId.validate doc_id) in
  let* doc := Coll.find_one coll o in
  match doc with
  | None => raise (HTTPException 404 "Not found")
  | Some _ => ret (body_of (to_obj doc))
  end.

(** [POST /api/{collection}]; the last argument is the value of the
    dependency [Depends(require_admin)]. *)
Definition create (collection : string) (payload : document) (_ : bool)
  : M body :=
  get_collection collection ;;;
  let* new_id := create_document collection payload in
  ret (JObject {[ "id" := VStr new_id ]}).

(** [PUT] and [PATCH /api/{collection}/{doc_id}]; [now] is what
    [datetime.now(timezone.utc)] reads. *)
Definition update (collection doc_id : string) (payload : document)
    (_ : bool) (now : Z) : M body :=
  let* coll := get_collection collection in
  let* o := lift (PyObjectId.validate doc_id) in
  let payload := <["updated_at" := VDate now]> payload in
  let* matched_count := Coll.update_one coll o payload in
  if (matched_count =? 0)%nat then raise (HTTPException 404 "Not found")
  else
    let* doc := Coll.find_one coll o in
    ret (body_of (to_obj doc)).

(** [DELETE /api/{collection}/{doc_id}] *)
Definition delete (collection doc_id : string) (_ : bool) : M body :=
  let* coll := get_collection collection in
  let* o := lift (PyObjectId.validate doc_id) in
  let* deleted_count := Coll.delete_one coll o in
  if (deleted_count =? 0)%nat then raise (HTTPException 404 "Not found")
  else ret (JObject (<["status" := VStr "deleted"]> {[ "id" := VStr doc_id ]})).

(** ** The HTTP surface *)

(** One constructor per route decorator of the source. A request is one
    whose parameters the framework accepts (a JSON object as body, an
    integer as limit); the framework refuses the others itself and the
    route's function never runs for them. *)
Inductive request : Type :=
| GET_collection (collection : string) (limit : Z)
| GET_document (collection doc_id : string)
| POST_collection (collection : string) (payload : document)
    (authorization : option string)
| PUT_document (collection doc_id : string) (payload : document)
    (authorization : option string)
| PATCH_document (collection doc_id : string) (payload : document)
    (authorization : option string)
| DELETE_document (collection doc_id : string)
    (authorization : option string).

Definition is_write (r : request) : bool :=
  match r with
  | GET_collection _ _ | GET_document _ _ => false
  | _ => true
  end.

Definition collection_of (r : request) : string :=
  match r with
  | GET_collection c _ | GET_document c _ | POST_collection c _ _
  | PUT_document c _ _ _ | PATCH_document c _ _ _ | DELETE_document c _ _ => c
  end.

Definition doc_id_of (r : request) : option string :=
  match r with
  | GET_collection _ _ | POST_collection _ _ _ => None
  | GET_document _ i | PUT_document _ i _ _ | PATCH_document _ i _ _
  | DELETE_document _ i _ => Some i
  end.

Definition authorization_of (r : request) : option string :=
  match r with
  | GET_collection _ _ | GET_document _ _ => None
  | POST_collection _ _ a | PUT_document _ _ _ a | PATCH_document _ _ _ a
  | DELETE_document _ _ a => a
  end.

(** The dependencies of a route are resolved before its function runs;
    the read routes have none. *)
Definition dependencies (r : request) : M bool :=
  if is_write r then lift (require_admin (authorization_of r)) else ret true.

(** The function a route is bound to, applied to the request. *)
Definition endpoint (r : request) (dep : bool) (now : Z) : M body :=
  match r with
  | GET_collection c limit => list_documents c limit
  | GET_document c i => get_document c i
  | POST_collection c p _ => create c p dep
  | PUT_document c i p _ => update c i p dep now
  | PATCH_document c i p _ => update c i p dep now
  | DELETE_document c i _ => delete c i dep
  end.

Definition handle (r : request) (now : Z) : M body :=
  let* dep := dependencies r in endpoint r dep now.

End App.

(** JSON has neither NaN nor infinities: the response is rendered with
    [allow_nan=False], which refuses a float whose exponent bits are all
    ones. *)
Definition finite_bits (bits : Z) : bool :=
  negb (Z.land (Z.shiftr bits 52) 2047 =? 2047)%Z.

Fixpoint renders (v : value) : bool :=
  match v with
  | VFloat bits => finite_bits bits
  | VList l => forallb renders l
  | VDict kv => forallb (fun e => renders (snd e)) kv
  | _ => true
  end.

Definition renders_document (d : document) : bool :=
  forallb (fun e => renders (snd e)) (map_to_list d).

Definition renders_body (b : body) : bool :=
  match b with
  | JNull => true
  | JObject d => renders_document d
  | JArray l =>
      forallb (fun o => match o with
                        | Some d => renders_document d
                        | None => true
                        end) l
  end.

(** The status line of a response. A returned body is answered 200 when it
    renders as JSON; when it does not, the rendering raises and the answer
    is 500. An [HTTPException] carries its own status; any other exception
    escapes the handler and is answered with 500. *)
Definition status (r : result body) : Z :=
  match r with
  | Return b => if renders_body b then 200 else 500
  | Raise (HTTPException s _) => s
  | Raise (ValueError _) => 500
  end.

(** The database contents, without the trace of operations. *)
Definition same_data (w w' : world) : Prop :=
  colls w = colls w' /\ next_oid w = next_oid w'.

(** Identifiers are unique within a collection and older than the next
    fresh one. *)
Definition wf (w : world) : Prop :=
  forall c, NoDup (oid <$> docs c w)
            /\ forall x, x ∈ oid <$> docs c w -> (x < next_oid w)%N.

Definition empty_world : world := World ∅ 0 [].

(** The names the registry recognizes, as the interface lists them. *)
Definition recognized : list string :=
  [ "setting"; "about"; "news"; "film"; "production"; "partner"; "application" ].

(** A header of the form scheme-then-token with the bearer scheme. *)
Definition bearer_form (h : string) : Prop :=
  exists scheme token,
    PyStr.split h = [scheme; token] /\ PyStr.lower scheme = "bearer".

(** The two routes bound to [update]. *)
Definition update_request (patch : bool) (c i : string) (p : document)
    (a : option string) : request :=
  if patch then PATCH_document c i p a else PUT_document c i p a.

(** Two stored records that agree on their identifier and on every field
    but the time stamp. *)
Definition same_but_stamp (d1 d2 : stored) : Prop :=
  oid d1 = oid d2
  /\ forall k, k <> "updated_at" -> fields d1 !! k = fields d2 !! k.

(** A computation that keeps the database well formed. *)
Definition preserves {A} (c : M A) : Prop :=
  forall w, wf w -> wf (snd (c w)).

(** The databases the program can produce, starting from an empty one. *)
Inductive reachable (T : string) : world -> Prop :=
| reachable_empty : reachable T empty_world
| reachable_step r now w :
    reachable T w -> reachable T (snd (handle T r now w)).

(** Sample data used to exercise the statements below. *)
Definition admin_header : option string :=
  Some "Bearer animal-studios-admin-token".

Definition launch : document :=
  <["title" := VStr "Launch"]> {[ "content" := VStr "Hello" ]}.

Definition first_id : string := "000000000000000000000000".

(** The database after the scenario's [POST /api/news]. *)
Definition one_news : world :=
  snd (handle DEFAULT_ADMIN_TOKEN (POST_collection "news" launch admin_header)
         0 empty_world).

(** ** Login *)

Module Auth.

Record LoginRequest : Type := {
  email : string;
  password : string
}.

(** [role] has the default ["admin"]; [login] never sets another. *)
Record LoginResponse : Type := {
  token : string;
  role : string
}.

Definition DEFAULT_ADMIN_EMAIL : string := "Lucien1409@gmail.streaming.com".
Definition DEFAULT_ADMIN_PASSWORD : string := "Streaming.Lucien".

Section Login.

(** The three settings read from the environment at start-up. *)
Variables ADMIN_EMAIL ADMIN_PASSWORD ADMIN_TOKEN : string.

(** [POST /auth/login] *)
Definition login (payload : LoginRequest) : result LoginResponse :=
  if String.eqb (email payload) ADMIN_EMAIL
     && String.eqb (password payload) ADMIN_PASSWORD
  then Return {| token := ADMIN_TOKEN; role := "admin" |}
  else Raise (HTTPException 401 "Invalid credentials").

End Login.

End Auth.

(** ** The diagnostic endpoint *)

Module Diagnostics.

(** What [db.list_collection_names()] does: it gives the names, or raises an
    exception [e] of which only [str(e)] is looked at. *)
Inductive listing : Type :=
| Listed (names : list string)
| Failed (str_e : string).

(** What [test_database] reads from its surroundings: whether [db] is not
    [None], two environment variables, and the outcome of the listing. *)
Record surroundings : Type := {
  db_present : bool;
  DATABASE_URL : option string;
  DATABASE_NAME : option string;
  list_collection_names : listing
}.

(** Truth value of [os.getenv(...)]: set and not empty. *)
Definition truthy (v : option string) : bool :=
  match v with
  | Some (String _ _) => true
  | _ => false
  end.

(** [GET /test]. The non-ASCII signs of the literals are carried as their
    UTF-8 bytes. Only the listing can raise; the outer handler of the source
    has nothing to catch. *)
Definition test_database (e : surroundings) : document :=
  let response : document :=
    <["collections" := VList []]>
      (<["connection_status" := VStr "Not Connected"]>
         (<["database_name" := VNull]>
            (<["database_url" := VNull]>
               (<["database" := VStr "❌ Not Available"]>
                  {[ "backend" := VStr "✅ Running" ]})))) in
  if db_present e then
    let response := <["database" := VStr "✅ Available"]> response in
    let response :=
      <["database_url" :=
          VStr (if truthy (DATABASE_URL e) then "✅ Set" else "❌ Not Set")]>
        response in
    let response :=
      <["database_name" :=
          VStr (if truthy (DATABASE_NAME e) then "✅ Set" else "❌ Not Set")]>
        response in
    match list_collection_names e with
    | Listed names =>
        let response := <["collections" := VList (VStr <$> names)]> response in
        let response := <["database" := VStr "✅ Connected & Working"]> response in
        <["connection_status" := VStr "Connected"]> response
    | Failed str_e =>
        <["database" :=
            VStr ("⚠️ Connected but error: " ++ substring 0 80 str_e)]>
          response
    end
  else <["database" := VStr "⚠️ Available but not initialized"]> response.

End Diagnostics.

(** ** Notions used by the further properties *)


(** A diagnostic run where the listing fails with a long message. *)
Definition failing_listing : Diagnostics.surroundings :=
  {| Diagnostics.db_present := true;
     Diagnostics.DATABASE_URL := Some "mongodb://localhost";
     Diagnostics.DATABASE_NAME := None;
     Diagnostics.list_collection_names :=
       Diagnostics.Failed
         "localhost:27017: [Errno 111] Connection refused (configured timeouts: socketTimeoutMS: 20000.0ms, connectTimeoutMS: 20000.0ms), Timeout: 30s" |}.

(** * Properties *)

(** ** The registry *)

Lemma in_COLLECTIONS_recognized name :
  in_COLLECTIONS name = true <-> name ∈ recognized.
Proof.
  unfold in_COLLECTIONS, COLLECTIONS, recognized. cbn [existsb fst].
  rewrite !orb_true_iff, !elem_of_cons, !String.eqb_eq, elem_of_nil.
  intuition discriminate.
Qed.

Lemma in_COLLECTIONS_unknown name :
  name ∉ recognized -> in_COLLECTIONS name = false.
Proof.
  intros Hn. destruct (in_COLLECTIONS name) eqn:E; [|done].
  by apply in_COLLECTIONS_recognized in E.
Qed.

(** ** Running a request *)

Lemma handle_read T r now w :
  is_write r = false -> handle T r now w = endpoint r true now w.
Proof.
  intros Hr. unfold handle, dependencies, bind, ret. by rewrite Hr.
Qed.

Lemma handle_write T r now w :
  is_write r = true ->
  handle T r now w =
    match require_admin T (authorization_of r) with
    | Return dep => endpoint r dep now w
    | Raise e => (Raise e, w)
    end.
Proof.
  intros Hr. unfold handle, dependencies, bind, lift. rewrite Hr.
  by destruct (require_admin T (authorization_of r)).
Qed.

Lemma handle_passed T r now w :
  is_write r = false \/ require_admin T (authorization_of r) = Return true ->
  handle T r now w = endpoint r true now w.
Proof.
  destruct (is_write r) eqn:Hr.
  - intros [?|Ha]; [done|]. by rewrite handle_write, Ha.
  - intros _. by apply handle_read.
Qed.

(** ** The auth gate *)

Lemma split_nonempty h : PyStr.split h <> [] -> h <> "".
Proof. by intros Hs ->. Qed.

Lemma require_admin_parts T h scheme token :
  PyStr.split h = [scheme; token] ->
  require_admin T (Some h) =
    if String.eqb (PyStr.lower scheme) "bearer"
    then if String.eqb token T then Return true
         else Raise (HTTPException 403 "Invalid token")
    else Raise (HTTPException 401 "Invalid Authorization header").
Proof.
  intros Hs. destruct h as [|c h]; [done|].
  unfold require_admin. rewrite Hs. cbn [length nth Nat.eqb negb orb].
  destruct (String.eqb (PyStr.lower scheme) "bearer"); [|done].
  by destruct (String.eqb token T).
Qed.

Lemma require_admin_malformed T h :
  ~ bearer_form h ->
  exists detail, require_admin T (Some h) = Raise (HTTPException 401 detail).
Proof.
  intros Hn. destruct h as [|c h]; [by eexists|].
  destruct (PyStr.split (String c h)) as [|s [|t [|u l]]] eqn:Hs;
    try (unfold require_admin; rewrite Hs; by eexists).
  rewrite (require_admin_parts _ _ _ _ Hs).
  destruct (String.eqb_spec (PyStr.lower s) "bearer") as [Hb|Hb]; [|by eexists].
  destruct Hn. by exists s, t.
Qed.

(** C3: on every write route, a missing Authorization header gives 401, a
    header that is not scheme-then-token with the bearer scheme gives 401, a
    well-formed header with a token other than the admin token gives 403,
    and with the admin token the check succeeds and the route's function
    runs. The 401 and 403 answers leave the database untouched. *)
Theorem write_authorization T r now w :
  is_write r = true ->
  match authorization_of r with
  | None =>
      handle T r now w
      = (Raise (HTTPException 401 "Missing Authorization header"), w)
  | Some h =>
      (~ bearer_form h ->
       exists detail, handle T r now w = (Raise (HTTPException 401 detail), w))
      /\ (forall scheme token,
            PyStr.split h = [scheme; token] ->
            PyStr.lower scheme = "bearer" ->
            (token <> T ->
             handle T r now w = (Raise (HTTPException 403 "Invalid token"), w))
            /\ (token = T ->
                require_admin T (Some h) = Return true
                /\ handle T r now w = endpoint r true now w))
  end.
Proof.
  intros Hr. rewrite (handle_write _ _ _ _ Hr).
  destruct (authorization_of r) as [h|]; [|done]. split.
  - intros Hn. destruct (require_admin_malformed T h Hn) as [d ->]. by exists d.
  - intros scheme token Hs Hb.
    rewrite (require_admin_parts T _ _ _ Hs), Hb, String.eqb_refl. split.
    + intros Hne. apply String.eqb_neq in Hne. by rewrite Hne.
    + intros ->. by rewrite String.eqb_refl.
Qed.

(** C10: the scheme is compared after lower-casing: a header of exactly two
    whitespace-separated parts whose first part lower-cases to "bearer" and
    whose second part is the admin token passes the check. *)
Theorem bearer_scheme_case_insensitive T h scheme token :
  PyStr.split h = [scheme; token] ->
  PyStr.lower scheme = "bearer" ->
  token = T ->
  require_admin T (Some h) = Return true.
Proof.
  intros Hs Hb ->.
  by rewrite (require_admin_parts T _ _ _ Hs), Hb, !String.eqb_refl.
Qed.

(** Any spelling of the scheme is taken: the header made of the scheme, one
    blank and the admin token passes whenever the scheme lower-cases to
    "bearer" (the token being one non-empty word). *)

Lemma lower_char_no_space c :
  PyStr.isspace (PyStr.lower_char c) = false -> PyStr.isspace c = false.
Proof. destruct c as [[] [] [] [] [] [] [] []]; by vm_compute. Qed.

Lemma lower_no_space s : PyStr.no_space (PyStr.lower s) -> PyStr.no_space s.
Proof.
  unfold PyStr.no_space. induction s as [|c s IH]; [done|].
  cbn [PyStr.lower list_ascii_of_string]. intros [Hc Hs]%Forall_cons.
  constructor; [by apply lower_char_no_space|by apply IH].
Qed.

Lemma append_cons c (t s : string) : String c t ++ s = String c (t ++ s).
Proof. reflexivity. Qed.

Lemma split_aux_word t word s :
  PyStr.no_space t ->
  PyStr.split_aux word (t ++ s)
  = PyStr.split_aux (rev (list_ascii_of_string t) ++ word)%list s.
Proof.
  unfold PyStr.no_space. revert word.
  induction t as [|c t IH]; intros word Ht; [done|].
  cbn [list_ascii_of_string] in Ht. apply Forall_cons in Ht as [Hc Ht].
  rewrite append_cons. cbn [PyStr.split_aux list_ascii_of_string rev].
  by rewrite Hc, (IH _ Ht), <- app_assoc.
Qed.

Lemma split_aux_end t word :
  PyStr.no_space t ->
  PyStr.split_aux word t
  = PyStr.flush (rev (list_ascii_of_string t) ++ word)%list.
Proof.
  unfold PyStr.no_space. revert word.
  induction t as [|c t IH]; intros word Ht; [done|].
  cbn [list_ascii_of_string] in Ht. apply Forall_cons in Ht as [Hc Ht].
  cbn [PyStr.split_aux list_ascii_of_string rev]. rewrite Hc.
  by rewrite (IH _ Ht), <- app_assoc.
Qed.

Lemma flush_word s :
  s <> "" -> PyStr.flush (rev (list_ascii_of_string s) ++ [])%list = [s].
Proof.
  intros Hs. rewrite app_nil_r. unfold PyStr.flush.
  destruct (rev (list_ascii_of_string s)) as [|c l] eqn:Hr.
  - apply (f_equal (@rev _)) in Hr. rewrite rev_involutive in Hr.
    destruct s; [done|discriminate Hr].
  - by rewrite <- Hr, rev_involutive, string_of_list_ascii_of_string.
Qed.

Lemma split_two s t :
  s <> "" -> t <> "" -> PyStr.no_space s -> PyStr.no_space t ->
  PyStr.split (s ++ " " ++ t) = [s; t].
Proof.
  intros Hs Ht Hns Hnt. unfold PyStr.split.
  rewrite (split_aux_word _ _ _ Hns), append_cons. cbn [PyStr.split_aux].
  change (PyStr.isspace " ") with true. cbv iota.
  change ("" ++ t) with t.
  by rewrite (split_aux_end _ _ Hnt), !flush_word.
Qed.

Lemma any_casing_accepted T scheme :
  PyStr.lower scheme = "bearer" -> T <> "" -> PyStr.no_space T ->
  require_admin T (Some (scheme ++ " " ++ T)) = Return true.
Proof.
  intros Hb HT Hns.
  rewrite (require_admin_parts T _ scheme T), Hb, !String.eqb_refl; [done|].
  apply split_two; [by intros ->|done| |done].
  apply lower_no_space. rewrite Hb. repeat constructor.
Qed.

(** ** Unknown collections *)

Lemma get_collection_unknown name w :
  name ∉ recognized ->
  get_collection name w = (Raise (HTTPException 404 "Unknown collection"), w).
Proof.
  intros Hn. unfold get_collection. by rewrite (in_COLLECTIONS_unknown _ Hn).
Qed.

Lemma get_collection_known name w :
  name ∈ recognized -> get_collection name w = (Return name, w).
Proof.
  intros Hn. apply in_COLLECTIONS_recognized in Hn.
  unfold get_collection. by rewrite Hn.
Qed.

Lemma endpoint_unknown r dep now w :
  collection_of r ∉ recognized ->
  endpoint r dep now w = (Raise (HTTPException 404 "Unknown collection"), w).
Proof.
  intros Hn.
  destruct r; cbn [collection_of] in Hn; cbn [endpoint];
    unfold list_documents, get_document, create, update, delete, bind;
    by rewrite (get_collection_unknown _ _ Hn).
Qed.

Lemma require_admin_refusal T a e :
  require_admin T a = Raise e ->
  exists s d, e = HTTPException s d /\ (s = 401 \/ s = 403)%Z.
Proof.
  unfold require_admin. intros H.
  repeat case_match; simplify_eq; eauto.
Qed.

(** C4, as the code has it: on a route under [/api] whose collection name is
    not one of the seven recognized names, no database operation is issued
    and the database is left as it was; the answer is 404 on the read routes
    and on a write route once the admin check has passed; on a write route
    whose admin check fails the answer is what the check raised, a 401 or a
    403, since the check runs first. *)
Theorem unknown_collection T r now w :
  collection_of r ∉ recognized ->
  snd (handle T r now w) = w
  /\ (is_write r = false
      \/ (exists dep, require_admin T (authorization_of r) = Return dep) ->
      fst (handle T r now w) = Raise (HTTPException 404 "Unknown collection"))
  /\ (is_write r = true ->
      forall e, require_admin T (authorization_of r) = Raise e ->
        fst (handle T r now w) = Raise e
        /\ (status (fst (handle T r now w)) = 401
            \/ status (fst (handle T r now w)) = 403)%Z)
  /\ status (fst (handle T r now w)) ∈ [401; 403; 404]%Z.
Proof.
  intros Hn. destruct (is_write r) eqn:Hr.
  - rewrite (handle_write _ _ _ _ Hr).
    destruct (require_admin T (authorization_of r)) as [dep|e] eqn:Hq.
    + rewrite (endpoint_unknown _ _ _ _ Hn). cbn.
      split_and!; [done|done|done|clear; set_solver].
    + destruct (require_admin_refusal _ _ _ Hq) as (s & d & -> & Hs).
      cbn. split_and!; [done| |by intros _ e [= <-]|].
      * intros [?|[dep ?]]; done.
      * clear -Hs. destruct Hs as [-> | ->]; set_solver.
  - rewrite (handle_read _ _ _ _ Hr), (endpoint_unknown _ _ _ _ Hn). cbn.
    split_and!; [done|done|done|clear; set_solver].
Qed.

(** ** PUT and PATCH *)

(** C9: PUT and PATCH on the same path, with the same body and headers, give
    the same response and the same resulting database: both routes are
    bound to [update]. *)
Theorem put_patch_same T c i p a now w :
  handle T (PUT_document c i p a) now w = handle T (PATCH_document c i p a) now w.
Proof. reflexivity. Qed.

(** ** Malformed identifiers *)

(** C2, what the code does instead: with a recognized collection and an id
    that [ObjectId.is_valid] refuses, [PyObjectId.validate] raises a
    [ValueError] that no handler catches; the request ends in 500, not in
    404. *)
Theorem malformed_id_unhandled T r i now w :
  doc_id_of r = Some i ->
  collection_of r ∈ recognized ->
  ObjectId.is_valid i = false ->
  is_write r = false \/ require_admin T (authorization_of r) = Return true ->
  handle T r now w = (Raise (ValueError "Invalid ObjectId"), w)
  /\ status (fst (handle T r now w)) = 500%Z.
Proof.
  intros Hi Hc Hv Ha. rewrite (handle_passed _ _ _ _ Ha).
  assert (endpoint r true now w = (Raise (ValueError "Invalid ObjectId"), w))
    as ->; [|done].
  destruct r; cbn [doc_id_of collection_of] in *; try discriminate Hi;
    injection Hi as ->; cbn [endpoint];
    unfold get_document, update, delete, bind, lift, PyObjectId.validate;
    by rewrite (get_collection_known _ _ Hc), Hv.
Qed.

(** ** The identifier codec *)

Lemma hex_char_is_hex d : (d < 16)%N -> ObjectId.is_hex (ObjectId.hex_char d) = true.
Proof.
  intros Hd. destruct d as [|q]; [done|].
  do 5 (try (destruct q as [q|q|]; try done; try lia)).
Qed.

Lemma hex_val_hex_char d : (d < 16)%N -> ObjectId.hex_val (ObjectId.hex_char d) = d.
Proof.
  intros Hd. destruct d as [|q]; [done|].
  do 5 (try (destruct q as [q|q|]; try done; try lia)).
Qed.

Lemma to_hex_length k n tail :
  String.length (ObjectId.to_hex k n tail) = (k + String.length tail)%nat.
Proof.
  revert n tail. induction k as [|k IH]; intros n tail; [done|].
  cbn [ObjectId.to_hex]. rewrite IH. cbn [String.length]. lia.
Qed.

Lemma to_hex_all_hex k n tail :
  forallb ObjectId.is_hex (list_ascii_of_string tail) = true ->
  forallb ObjectId.is_hex (list_ascii_of_string (ObjectId.to_hex k n tail)) = true.
Proof.
  revert n tail. induction k as [|k IH]; intros n tail Ht; [done|].
  cbn [ObjectId.to_hex]. apply IH. cbn [list_ascii_of_string forallb].
  rewrite Ht, hex_char_is_hex; [done|]. apply N.mod_lt. lia.
Qed.

Lemma from_hex_to_hex k n tail acc :
  ObjectId.from_hex acc (ObjectId.to_hex k n tail)
  = ObjectId.from_hex (acc * 16 ^ N.of_nat k + n mod 16 ^ N.of_nat k)%N tail.
Proof.
  revert n tail acc. induction k as [|k IH]; intros n tail acc.
  - cbn [ObjectId.to_hex]. f_equal. change (16 ^ N.of_nat 0)%N with 1%N.
    rewrite N.mod_1_r. lia.
  - cbn [ObjectId.to_hex]. rewrite IH. cbn [ObjectId.from_hex].
    rewrite hex_val_hex_char by (apply N.mod_lt; lia). f_equal.
    rewrite Nat2N.inj_succ, N.pow_succ_r'.
    rewrite (N.Div0.mod_mul_r n 16 (16 ^ N.of_nat k)). lia.
Qed.

Lemma hex_not_space c :
  ObjectId.is_hex c = true -> ObjectId.is_ascii_space c = false.
Proof. destruct c as [[] [] [] [] [] [] [] []]; by vm_compute. Qed.

Lemma fromhex_hex n s :
  String.length s = (2 * n)%nat ->
  forallb ObjectId.is_hex (list_ascii_of_string s) = true ->
  exists bs,
    ObjectId.fromhex s = Some bs /\ length bs = n
    /\ forall acc, ObjectId.value_of acc bs = ObjectId.from_hex acc s.
Proof.
  revert s. induction n as [|n IH]; intros s Hl Hh.
  - destruct s; [|discriminate Hl]. by exists [].
  - destruct s as [|c [|c' s]]; cbn [String.length] in Hl; try lia.
    cbn [list_ascii_of_string forallb] in Hh.
    apply andb_true_iff in Hh as [Hc Hh]. apply andb_true_iff in Hh as [Hc' Hh].
    destruct (IH s ltac:(lia) Hh) as (bs & Hbs & Hn & Hval).
    exists ((16 * ObjectId.hex_val c + ObjectId.hex_val c')%N :: bs).
    cbn [ObjectId.fromhex]. rewrite (hex_not_space _ Hc), Hc, Hc', Hbs.
    split_and!; [done|cbn; lia|]. intros acc.
    unfold ObjectId.value_of in *. cbn [fold_left ObjectId.from_hex].
    rewrite Hval. f_equal. lia.
Qed.

Lemma str_is_valid o :
  (o < ObjectId.bound)%N -> ObjectId.is_valid (ObjectId.str o) = true.
Proof.
  intros Ho. unfold ObjectId.is_valid, ObjectId.str.
  apply N.ltb_lt in Ho. rewrite Ho, to_hex_length. cbn [Nat.add Nat.eqb andb].
  destruct (fromhex_hex 12 (ObjectId.to_hex 24 o ""))
    as (bs & -> & _); [by rewrite to_hex_length|by apply to_hex_all_hex|done].
Qed.

Lemma of_str_str o : (o < ObjectId.bound)%N -> ObjectId.of_str (ObjectId.str o) = o.
Proof.
  intros Ho. unfold ObjectId.of_str, ObjectId.str.
  rewrite (proj2 (N.ltb_lt _ _) Ho).
  destruct (fromhex_hex 12 (ObjectId.to_hex 24 o ""))
    as (bs & -> & Hn & Hval); [by rewrite to_hex_length|by apply to_hex_all_hex|].
  unfold ObjectId.of_bytes. rewrite Hn, Hval. cbn [Nat.eqb].
  rewrite from_hex_to_hex. cbn [ObjectId.from_hex].
  change (16 ^ N.of_nat 24)%N with ObjectId.bound.
  rewrite N.mod_small; [lia|done].
Qed.

Lemma validate_str o :
  (o < ObjectId.bound)%N -> PyObjectId.validate (ObjectId.str o) = Return o.
Proof.
  intros Ho. unfold PyObjectId.validate.
  by rewrite str_is_valid, of_str_str.
Qed.

(** ** The database primitives *)

Lemma docs_log op c w : docs c (log op w) = docs c w.
Proof. done. Qed.

Lemma docs_set_docs c l w : docs c (set_docs c l w) = l.
Proof. unfold docs, set_docs. cbn. by rewrite lookup_insert_eq. Qed.

Lemma docs_set_docs_ne c c' l w : c' <> c -> docs c' (set_docs c l w) = docs c' w.
Proof. intros Hc. unfold docs, set_docs. cbn. by rewrite lookup_insert_ne. Qed.

Lemma find_split o (l : list stored) d :
  List.find (has_oid o) l = Some d ->
  exists l1 l2, l = (l1 ++ d :: l2)%list /\ has_oid o d = true
                /\ List.find (has_oid o) l1 = None.
Proof.
  induction l as [|x l IH]; [done|]. cbn [List.find].
  destruct (has_oid o x) eqn:Hx.
  - intros [= ->]. by exists [], l.
  - intros Hf. destruct (IH Hf) as (l1 & l2 & -> & Hd & Hn).
    exists (x :: l1), l2. cbn [List.find]. by rewrite Hx.
Qed.

Lemma find_app_first o (l1 l2 : list stored) d :
  List.find (has_oid o) l1 = None -> has_oid o d = true ->
  List.find (has_oid o) (l1 ++ d :: l2) = Some d.
Proof.
  intros Hn Hd. induction l1 as [|x l1 IH]; cbn [List.find app].
  - by rewrite Hd.
  - cbn [List.find] in Hn. destruct (has_oid o x); [done|]. by apply IH.
Qed.

Lemma set_first_None o p l :
  List.find (has_oid o) l = None -> set_first o p l = None.
Proof.
  induction l as [|x l IH]; [done|]. cbn [List.find set_first].
  destruct (has_oid o x); [done|]. intros Hn. by rewrite (IH Hn).
Qed.

Lemma set_first_Some o p l1 l2 d :
  List.find (has_oid o) l1 = None -> has_oid o d = true ->
  set_first o p (l1 ++ d :: l2) = Some (l1 ++ set_fields p d :: l2)%list.
Proof.
  intros Hn Hd. induction l1 as [|x l1 IH]; cbn [set_first app].
  - by rewrite Hd.
  - cbn [List.find] in Hn. destruct (has_oid o x); [done|]. by rewrite (IH Hn).
Qed.

Lemma delete_first_None o l :
  List.find (has_oid o) l = None -> delete_first o l = None.
Proof.
  induction l as [|x l IH]; [done|]. cbn [List.find delete_first].
  destruct (has_oid o x); [done|]. intros Hn. by rewrite (IH Hn).
Qed.

Lemma delete_first_Some o l1 l2 d :
  List.find (has_oid o) l1 = None -> has_oid o d = true ->
  delete_first o (l1 ++ d :: l2) = Some (l1 ++ l2)%list.
Proof.
  intros Hn Hd. induction l1 as [|x l1 IH]; cbn [delete_first app].
  - by rewrite Hd.
  - cbn [List.find] in Hn. destruct (has_oid o x); [done|]. by rewrite (IH Hn).
Qed.

Lemma has_oid_eq o d : has_oid o d = true -> oid d = o.
Proof. unfold has_oid. by intros [?%N.eqb_eq _]%andb_true_iff. Qed.

Lemma has_oid_bound o d : has_oid o d = true -> (o < ObjectId.bound)%N.
Proof. unfold has_oid. by intros [_ ?%N.ltb_lt]%andb_true_iff. Qed.

Lemma has_oid_intro o d :
  oid d = o -> (o < ObjectId.bound)%N -> has_oid o d = true.
Proof.
  intros <- Ho. unfold has_oid. apply andb_true_iff.
  split; [apply N.eqb_refl|by apply N.ltb_lt].
Qed.

Lemma find_None_oid o (l : list stored) :
  o ∉ oid <$> l -> List.find (has_oid o) l = None.
Proof.
  induction l as [|x l IH]; cbn [List.find fmap list_fmap]; [done|].
  intros [Hx Hl]%not_elem_of_cons.
  destruct (has_oid o x) eqn:Hh; [|by apply IH].
  apply has_oid_eq in Hh. by destruct Hx.
Qed.

(** ** What each handler does on a recognized collection *)

Lemma get_document_run c i now w :
  c ∈ recognized -> ObjectId.is_valid i = true ->
  let o := ObjectId.of_str i in
  endpoint (GET_document c i) true now w =
    (match List.find (has_oid o) (docs c w) with
     | None => Raise (HTTPException 404 "Not found")
     | Some d => Return (body_of (to_obj (Some d)))
     end, log (OpFindOne c o) w).
Proof.
  intros Hc Hv. cbn [endpoint].
  unfold get_document, bind, lift, PyObjectId.validate, Coll.find_one.
  rewrite (get_collection_known _ _ Hc), Hv. cbn [negb].
  by destruct (List.find _ _).
Qed.

Lemma create_run c p dep w :
  c ∈ recognized ->
  create c p dep w =
    (Return (JObject {[ "id" := VStr (ObjectId.str (next_oid w)) ]}),
     log (OpInsert c)
       (World (<[c := (docs c w ++ [Stored (next_oid w) (base.delete "_id" p)])%list]>
                 (colls w))
              (N.succ (next_oid w)) (trace w))).
Proof.
  intros Hc. unfold create, bind. by rewrite (get_collection_known _ _ Hc).
Qed.

Lemma update_run c i p dep now w :
  c ∈ recognized -> ObjectId.is_valid i = true ->
  let o := ObjectId.of_str i in
  update c i p dep now w =
    match set_first o (<["updated_at" := VDate now]> p) (docs c w) with
    | None => (Raise (HTTPException 404 "Not found"), log (OpUpdateOne c o) w)
    | Some l' =>
        (Return (body_of (to_obj (List.find (has_oid o) l'))),
         log (OpFindOne c o) (log (OpUpdateOne c o) (set_docs c l' w)))
    end.
Proof.
  intros Hc Hv. unfold update, bind, lift, PyObjectId.validate, Coll.update_one.
  rewrite (get_collection_known _ _ Hc), Hv. cbn [negb].
  destruct (set_first _ _ _) as [l'|]; [|done].
  cbn [Nat.eqb]. unfold Coll.find_one, ret.
  by rewrite !docs_log, docs_set_docs.
Qed.

Lemma delete_run c i dep w :
  c ∈ recognized -> ObjectId.is_valid i = true ->
  let o := ObjectId.of_str i in
  delete c i dep w =
    match delete_first o (docs c w) with
    | None => (Raise (HTTPException 404 "Not found"), log (OpDeleteOne c o) w)
    | Some l' =>
        (Return (JObject (<["status" := VStr "deleted"]> {[ "id" := VStr i ]})),
         log (OpDeleteOne c o) (set_docs c l' w))
    end.
Proof.
  intros Hc Hv. unfold delete, bind, lift, PyObjectId.validate, Coll.delete_one.
  rewrite (get_collection_known _ _ Hc), Hv. cbn [negb].
  by destruct (delete_first _ _).
Qed.

Lemma handle_update T patch c i p a now w :
  require_admin T a = Return true ->
  handle T (update_request patch c i p a) now w = update c i p true now w.
Proof.
  intros Ha. rewrite handle_passed; destruct patch; by try right.
Qed.

(** ** Update *)

Lemma stamped_lookup (p f : document) now k :
  (<["updated_at" := VDate now]> p ∪ f) !! k
  = if decide (k = "updated_at") then Some (VDate now)
    else match p !! k with
         | Some v => Some v
         | None => f !! k
         end.
Proof.
  rewrite lookup_union. case_decide as Hk.
  - subst k. rewrite lookup_insert_eq. by destruct (f !! "updated_at").
  - rewrite lookup_insert_ne by done.
    destruct (p !! k), (f !! k); done.
Qed.

Lemma restamp (p f : document) t1 t2 :
  <["updated_at" := VDate t2]> p ∪ (<["updated_at" := VDate t1]> p ∪ f)
  = <["updated_at" := VDate t2]> p ∪ f.
Proof.
  apply map_eq. intros k. rewrite !lookup_union.
  destruct (decide (k = "updated_at")) as [->|Hk].
  - rewrite !lookup_insert_eq. by destruct (f !! "updated_at").
  - rewrite !lookup_insert_ne by done. by destruct (p !! k), (f !! k).
Qed.

Lemma same_but_stamp_refl l : Forall2 same_but_stamp l l.
Proof. induction l; constructor; [by split|done]. Qed.

Lemma same_but_stamp_set p t1 t2 d :
  same_but_stamp (set_fields (<["updated_at" := VDate t1]> p) d)
                 (set_fields (<["updated_at" := VDate t2]> p) d).
Proof.
  split; [done|]. intros k Hk. cbn [set_fields fields].
  rewrite !stamped_lookup. by case_decide.
Qed.

Lemma update_stops c i p dep now w :
  c ∉ recognized \/ ObjectId.is_valid i = false ->
  exists e, update c i p dep now w = (Raise e, w).
Proof.
  intros [Hc|Hv].
  - eexists. unfold update, bind. by rewrite (get_collection_unknown _ _ Hc).
  - destruct (decide (c ∈ recognized)) as [Hc|Hc].
    + eexists. unfold update, bind, lift, PyObjectId.validate.
      by rewrite (get_collection_known _ _ Hc), Hv.
    + eexists. unfold update, bind. by rewrite (get_collection_unknown _ _ Hc).
Qed.

(** C5, as the code has it: an update (PUT or PATCH) of an existing record,
    by its well-formed id, gives every field named in the payload the
    supplied value, except that [updated_at] always receives the server's
    clock reading, and leaves every other field, every other record and
    every other collection as they were; the answer is the updated record.
    When no record has that id the answer is 404 and the database contents
    are unchanged. *)
Theorem update_merges T patch c i p a now w :
  require_admin T a = Return true ->
  c ∈ recognized ->
  ObjectId.is_valid i = true ->
  let o := ObjectId.of_str i in
  let r := update_request patch c i p a in
  let w' := snd (handle T r now w) in
  match List.find (has_oid o) (docs c w) with
  | None =>
      fst (handle T r now w) = Raise (HTTPException 404 "Not found")
      /\ same_data w w'
  | Some d =>
      exists l1 l2 d',
        docs c w = (l1 ++ d :: l2)%list
        /\ List.find (has_oid o) l1 = None
        /\ docs c w' = (l1 ++ d' :: l2)%list
        /\ oid d' = oid d
        /\ (forall k,
              fields d' !! k
              = if decide (k = "updated_at") then Some (VDate now)
                else match p !! k with
                     | Some v => Some v
                     | None => fields d !! k
                     end)
        /\ (forall c', c' <> c -> docs c' w' = docs c' w)
        /\ next_oid w' = next_oid w
        /\ fst (handle T r now w) = Return (body_of (to_obj (Some d')))
  end.
Proof.
  intros Ha Hc Hv o r w'. subst r w'.
  rewrite (handle_update _ _ _ _ _ _ _ _ Ha), (update_run _ _ _ _ _ _ Hc Hv).
  fold o. destruct (List.find (has_oid o) (docs c w)) as [d|] eqn:Hf.
  - destruct (find_split _ _ _ Hf) as (l1 & l2 & Hl & Hd & Hn).
    rewrite Hl, (set_first_Some _ _ _ _ _ Hn Hd).
    exists l1, l2, (set_fields (<["updated_at" := VDate now]> p) d).
    cbn [fst snd]. rewrite !docs_log, docs_set_docs.
    split_and!; try done.
    + intros k. apply stamped_lookup.
    + intros c' Hc'. by rewrite !docs_log, docs_set_docs_ne.
    + by rewrite (find_app_first _ _ _ _ Hn).
  - by rewrite (set_first_None _ _ _ Hf).
Qed.

(** C6, as the code has it: applying the same update twice in succession
    leaves the database as one application at the time of the second would,
    with the same answer; the records after one and after two applications
    agree on everything but [updated_at], and are the same when both
    applications read the same clock value. *)
Theorem update_twice T patch c i p a t1 t2 w :
  let r := update_request patch c i p a in
  let w1 := snd (handle T r t1 w) in
  let w2 := snd (handle T r t2 w1) in
  same_data w2 (snd (handle T r t2 w))
  /\ fst (handle T r t2 w1) = fst (handle T r t2 w)
  /\ (forall c', Forall2 same_but_stamp (docs c' w1) (docs c' w2))
  /\ (t1 = t2 -> same_data w2 w1).
Proof.
  intros r w1 w2.
  assert (same_data w2 (snd (handle T r t2 w))
          /\ fst (handle T r t2 w1) = fst (handle T r t2 w)
          /\ (forall c', Forall2 same_but_stamp (docs c' w1) (docs c' w2)))
    as (H1 & H2 & H3);
    [|split_and!; try done; intros <-; exact H1].
  subst w2 w1.
  assert (is_write r = true) as Hr by (subst r; by destruct patch).
  rewrite !(handle_write _ _ _ _ Hr).
  destruct (require_admin T (authorization_of r)) as [dep|e];
    [|split_and!; try done; intros; apply same_but_stamp_refl].
  assert (forall now w0, endpoint r dep now w0 = update c i p dep now w0) as Hep
    by (subst r; by destruct patch).
  rewrite !Hep.
  destruct (decide (c ∈ recognized)) as [Hc|Hc]; cycle 1.
  { destruct (update_stops c i p dep t1 w (or_introl Hc)) as [e1 ->].
    destruct (update_stops c i p dep t2 w (or_introl Hc)) as [e2 He2].
    cbn [snd]. rewrite He2. cbn [fst snd].
    split_and!; try done. intros; apply same_but_stamp_refl. }
  destruct (ObjectId.is_valid i) eqn:Hv; cycle 1.
  { destruct (update_stops c i p dep t1 w (or_intror Hv)) as [e1 ->].
    destruct (update_stops c i p dep t2 w (or_intror Hv)) as [e2 He2].
    cbn [snd]. rewrite He2. cbn [fst snd].
    split_and!; try done. intros; apply same_but_stamp_refl. }
  rewrite !(update_run _ _ _ _ _ _ Hc Hv). cbv zeta.
  set (o := ObjectId.of_str i).
  destruct (List.find (has_oid o) (docs c w)) as [d|] eqn:Hf.
  - destruct (find_split _ _ _ Hf) as (l1 & l2 & Hl & Hd & Hn).
    rewrite Hl, !(set_first_Some _ _ _ _ _ Hn Hd). cbn [snd].
    rewrite !docs_log, docs_set_docs.
    rewrite (set_first_Some _ _ _ _ _ Hn) by done.
    assert (set_fields (<["updated_at" := VDate t2]> p)
              (set_fields (<["updated_at" := VDate t1]> p) d)
            = set_fields (<["updated_at" := VDate t2]> p) d) as ->.
    { unfold set_fields. cbn [oid fields]. by rewrite restamp. }
    cbn [fst snd]. split_and!; try done.
    + split; [|done]. cbn. by rewrite insert_insert_eq.
    + intros c'. rewrite !docs_log.
      destruct (decide (c' = c)) as [->|Hc'].
      * rewrite !docs_set_docs. apply Forall2_app; [apply same_but_stamp_refl|].
        constructor; [apply same_but_stamp_set|apply same_but_stamp_refl].
      * repeat (rewrite ?docs_log, ?docs_set_docs_ne by done).
        apply same_but_stamp_refl.
  - rewrite !(set_first_None _ _ _ Hf). cbn [snd].
    rewrite ?docs_log, ?(set_first_None _ _ _ Hf). cbn [fst snd].
    split_and!; try done. intros; apply same_but_stamp_refl.
Qed.

(** ** The database stays well formed *)

Lemma set_first_oids o p l l' :
  set_first o p l = Some l' -> oid <$> l' = oid <$> l.
Proof.
  revert l'. induction l as [|x l IH]; intros l'; [done|]. cbn [set_first].
  destruct (has_oid o x).
  - by intros [= <-].
  - destruct (set_first o p l) as [l0|]; [|done]. cbn.
    intros [= <-]. cbn. f_equal. by apply IH.
Qed.

Lemma delete_first_split o l l' :
  delete_first o l = Some l' ->
  exists l1 d l2, l = (l1 ++ d :: l2)%list /\ l' = (l1 ++ l2)%list.
Proof.
  revert l'. induction l as [|x l IH]; intros l'; [done|]. cbn [delete_first].
  destruct (has_oid o x).
  - intros [= <-]. by exists [], x, l.
  - destruct (delete_first o l) as [l0|]; [|done]. cbn. intros [= <-].
    destruct (IH l0 eq_refl) as (l1 & d & l2 & -> & ->).
    by exists (x :: l1), d, l2.
Qed.

Lemma wf_log op w : wf w -> wf (log op w).
Proof. done. Qed.

Lemma wf_set_docs c l w :
  wf w -> NoDup (oid <$> l) ->
  (forall x, x ∈ oid <$> l -> x ∈ oid <$> docs c w) ->
  wf (set_docs c l w).
Proof.
  intros Hw Hl Hsub c'. destruct (decide (c' = c)) as [->|Hc].
  - rewrite docs_set_docs. split; [done|].
    intros x Hx. by apply (Hw c), Hsub.
  - rewrite docs_set_docs_ne by done. apply Hw.
Qed.

Lemma preserves_ret {A} (a : A) : preserves (ret a).
Proof. by intros w. Qed.

Lemma preserves_raise {A} e : preserves (@raise A e).
Proof. by intros w. Qed.

Lemma preserves_lift {A} (r : result A) : preserves (lift r).
Proof. by intros w. Qed.

Lemma preserves_bind {A B} (c : M A) (k : A -> M B) :
  preserves c -> (forall a, preserves (k a)) -> preserves (bind c k).
Proof.
  intros Hc Hk w Hw. unfold bind. specialize (Hc w Hw).
  destruct (c w) as [[x|e] w1]; [by apply Hk|done].
Qed.

Lemma preserves_get_collection name : preserves (get_collection name).
Proof.
  unfold get_collection.
  destruct (negb _); [apply preserves_raise|apply preserves_ret].
Qed.

Lemma preserves_find_one c o : preserves (Coll.find_one c o).
Proof. by intros w. Qed.

Lemma preserves_get_documents c limit : preserves (get_documents c limit).
Proof. by intros w. Qed.

Lemma preserves_update_one c o p : preserves (Coll.update_one c o p).
Proof.
  intros w Hw. unfold Coll.update_one.
  destruct (set_first o p (docs c w)) as [l'|] eqn:Hs; [|done].
  cbn [snd]. apply wf_log, wf_set_docs; [done|..];
    rewrite (set_first_oids _ _ _ _ Hs); [apply Hw|done].
Qed.

Lemma preserves_delete_one c o : preserves (Coll.delete_one c o).
Proof.
  intros w Hw. unfold Coll.delete_one.
  destruct (delete_first o (docs c w)) as [l'|] eqn:Hs; [|done].
  destruct (delete_first_split _ _ _ Hs) as (l1 & d & l2 & Hl & ->).
  cbn [snd]. apply wf_log, wf_set_docs; [done|..].
  - destruct (Hw c) as [Hnd _]. rewrite Hl, fmap_app, fmap_cons in Hnd.
    rewrite fmap_app. apply NoDup_app in Hnd as (H1 & H2 & H3).
    apply NoDup_cons in H3 as [_ H3]. apply NoDup_app. split_and!; [done| |done].
    intros x Hx Hx'. apply (H2 x Hx). by right.
  - intros x. rewrite Hl, !fmap_app, fmap_cons, !elem_of_app, elem_of_cons.
    tauto.
Qed.

Lemma preserves_create_document c p : preserves (create_document c p).
Proof.
  intros w Hw c'. unfold create_document. cbn [snd].
  rewrite docs_log. unfold docs at 1 3. cbn [colls next_oid log].
  destruct (decide (c' = c)) as [->|Hc].
  - rewrite lookup_insert_eq. cbn [default id]. rewrite fmap_app. cbn.
    destruct (Hw c) as [Hnd Hlt]. split.
    + apply NoDup_app. split_and!; [done| |apply NoDup_singleton].
      intros x Hx ->%list_elem_of_singleton. specialize (Hlt _ Hx). lia.
    + intros x [Hx| ->%list_elem_of_singleton]%elem_of_app; [|lia].
      specialize (Hlt _ Hx). lia.
  - rewrite lookup_insert_ne by done. destruct (Hw c') as [Hnd Hlt].
    split; [done|]. intros x Hx. specialize (Hlt _ Hx). lia.
Qed.

Create HintDb preserves.
#[local] Hint Resolve preserves_ret preserves_raise preserves_lift
  preserves_get_collection preserves_find_one preserves_get_documents
  preserves_update_one preserves_delete_one preserves_create_document
  : preserves.

Ltac preserves_step :=
  first [ apply preserves_bind; [|intros ?] | case_match ];
  auto with preserves.

Lemma preserves_endpoint r dep now : preserves (endpoint r dep now).
Proof.
  destruct r; cbn [endpoint];
    unfold list_documents, get_document, create, update, delete;
    repeat preserves_step.
Qed.

Lemma preserves_handle T r now : preserves (handle T r now).
Proof.
  unfold handle, dependencies. apply preserves_bind.
  - destruct (is_write r); auto with preserves.
  - intros dep. apply preserves_endpoint.
Qed.

Lemma wf_empty : wf empty_world.
Proof. intros c. split; [apply NoDup_nil_2|]. by intros x ?%elem_of_nil. Qed.

Lemma reachable_wf T w : reachable T w -> wf w.
Proof.
  induction 1 as [|r now w _ IH]; [apply wf_empty|by apply preserves_handle].
Qed.

(** ** Delete *)

(** C8: deleting an existing record of a recognized collection answers
    [{status: "deleted", id}]; a following get of that id answers 404, and so
    does a second delete. The database is well formed, as every database the
    program produces is ([reachable_wf]). *)
Theorem delete_then_gone T c i a a' now w :
  require_admin T a = Return true ->
  require_admin T a' = Return true ->
  c ∈ recognized ->
  ObjectId.is_valid i = true ->
  wf w ->
  is_Some (List.find (has_oid (ObjectId.of_str i)) (docs c w)) ->
  let w1 := snd (handle T (DELETE_document c i a) now w) in
  fst (handle T (DELETE_document c i a) now w)
  = Return (JObject (<["status" := VStr "deleted"]> {[ "id" := VStr i ]}))
  /\ (forall t, fst (handle T (GET_document c i) t w1)
                = Raise (HTTPException 404 "Not found"))
  /\ (forall t, fst (handle T (DELETE_document c i a') t w1)
                = Raise (HTTPException 404 "Not found")).
Proof.
  intros Ha Ha' Hc Hv Hw [d Hf] w1. subst w1.
  rewrite (handle_passed T (DELETE_document c i a)) by (by right).
  cbn [endpoint]. rewrite (delete_run _ _ _ _ Hc Hv). cbv zeta.
  set (o := ObjectId.of_str i) in *.
  destruct (find_split _ _ _ Hf) as (l1 & l2 & Hl & Hd & Hn).
  rewrite Hl, (delete_first_Some _ _ _ _ Hn Hd). cbn [fst snd].
  assert (List.find (has_oid o) (l1 ++ l2) = None) as Hgone.
  { apply find_None_oid. destruct (Hw c) as [Hnd _].
    rewrite Hl, fmap_app, fmap_cons in Hnd. apply has_oid_eq in Hd.
    rewrite Hd in Hnd. apply NoDup_app in Hnd as (_ & H2 & H3).
    apply NoDup_cons in H3 as [H3 _].
    rewrite fmap_app. intros [Hx|Hx]%elem_of_app; [|done].
    apply (H2 _ Hx). by left. }
  split_and!; [done|..]; intros t.
  - rewrite handle_read by done.
    rewrite (get_document_run _ _ _ _ Hc Hv). cbn [fst]. fold o.
    by rewrite docs_log, docs_set_docs, Hgone.
  - rewrite (handle_passed T (DELETE_document c i a')) by (by right).
    cbn [endpoint]. rewrite (delete_run _ _ _ _ Hc Hv). cbv zeta. fold o.
    by rewrite docs_log, docs_set_docs, (delete_first_None _ _ Hgone).
Qed.

(** ** Create *)

(** C1, as the code has it: on a recognized collection, a create request
    with the admin token and any JSON object as body, whatever fields it has
    or lacks and whatever their types, succeeds: the body is stored as a new
    record under a newly assigned id and [{id}] is the answer. No shape is
    checked. *)
Theorem create_stores_any_body T c p a now w :
  require_admin T a = Return true ->
  c ∈ recognized ->
  let w' := snd (handle T (POST_collection c p a) now w) in
  fst (handle T (POST_collection c p a) now w)
  = Return (JObject {[ "id" := VStr (ObjectId.str (next_oid w)) ]})
  /\ docs c w' = (docs c w ++ [Stored (next_oid w) (base.delete "_id" p)])%list
  /\ (forall c', c' <> c -> docs c' w' = docs c' w).
Proof.
  intros Ha Hc w'. subst w'.
  rewrite (handle_passed T (POST_collection c p a)) by (by right).
  cbn [endpoint]. rewrite (create_run _ _ _ _ Hc). cbn [fst snd].
  split_and!; [done|..].
  - unfold docs at 1. cbn. by rewrite lookup_insert_eq.
  - intros c' Hc'. unfold docs at 1. cbn. by rewrite lookup_insert_ne.
Qed.

(** C7, as the code has it: after a create of [r] on a recognized
    collection has answered [{id}], a get of that id answers [r] with the
    assigned id as its ["id"] field (a client-supplied ["_id"] aside) and
    nothing more; no declared default is filled in. The database is well
    formed and has identifiers left. *)
Theorem create_then_get T c p a now now' w :
  require_admin T a = Return true ->
  c ∈ recognized ->
  wf w ->
  (next_oid w < ObjectId.bound)%N ->
  let new_id := ObjectId.str (next_oid w) in
  let w' := snd (handle T (POST_collection c p a) now w) in
  fst (handle T (POST_collection c p a) now w)
  = Return (JObject {[ "id" := VStr new_id ]})
  /\ fst (handle T (GET_document c new_id) now' w')
     = Return (JObject (<["id" := VStr new_id]> (base.delete "_id" p))).
Proof.
  intros Ha Hc Hw Hb new_id w'. subst new_id w'.
  rewrite (handle_passed T (POST_collection c p a)) by (by right).
  cbn [endpoint]. rewrite (create_run _ _ _ _ Hc). cbn [fst snd].
  split; [done|]. rewrite handle_read by done.
  rewrite (get_document_run _ _ _ _ Hc (str_is_valid _ Hb)). cbn [fst].
  rewrite (of_str_str _ Hb), docs_log. unfold docs at 1. cbn [colls].
  rewrite lookup_insert_eq. cbn [default id].
  rewrite (find_app_first _ _ []
             (Stored (next_oid w) (base.delete "_id" p))).
  - cbn [to_obj body_of oid fields]. by rewrite delete_delete_eq.
  - apply find_None_oid. intros Hx. destruct (Hw c) as [_ Hlt].
    specialize (Hlt _ Hx). lia.
  - by apply has_oid_intro.
Qed.

(** * Concrete runs *)

Lemma news_recognized : "news" ∈ recognized.
Proof. by apply in_COLLECTIONS_recognized. Qed.

Lemma unknown_unrecognized : "unknown" ∉ recognized.
Proof. intros H. by apply in_COLLECTIONS_recognized in H. Qed.

Lemma one_news_docs : docs "news" one_news = [Stored 0%N launch].
Proof. by vm_compute. Qed.

Lemma one_news_wf : wf one_news.
Proof. apply (reachable_wf DEFAULT_ADMIN_TOKEN). repeat constructor. Qed.

Example split_runs : PyStr.split "  Bearer   abc " = ["Bearer"; "abc"].
Proof. reflexivity. Qed.

Example str_255 : ObjectId.str 255%N = "0000000000000000000000ff".
Proof. reflexivity. Qed.

Example of_str_upper : ObjectId.of_str "0000000000000000000000FF" = 255%N.
Proof. reflexivity. Qed.

(** ** Authorization *)

Lemma write_authorization_witness :
  require_admin DEFAULT_ADMIN_TOKEN admin_header = Return true
  /\ handle DEFAULT_ADMIN_TOKEN (POST_collection "news" launch admin_header)
       0 empty_world
     = endpoint (POST_collection "news" launch admin_header) true 0 empty_world.
Proof.
  apply (proj2 (write_authorization DEFAULT_ADMIN_TOKEN
                  (POST_collection "news" launch admin_header) 0 empty_world
                  eq_refl)
           "Bearer" DEFAULT_ADMIN_TOKEN eq_refl eq_refl).
  reflexivity.
Defined.

Lemma bearer_scheme_case_insensitive_witness :
  require_admin DEFAULT_ADMIN_TOKEN (Some "BEARER animal-studios-admin-token")
  = Return true.
Proof.
  apply (bearer_scheme_case_insensitive DEFAULT_ADMIN_TOKEN
           "BEARER animal-studios-admin-token" "BEARER" DEFAULT_ADMIN_TOKEN);
    reflexivity.
Defined.

(** ** Unknown collections *)

(** C4 as stated fails: a POST to an unknown collection without an
    Authorization header is answered 401, not 404. *)
Lemma unknown_collection_without_token :
  ("unknown" ∉ recognized)
  /\ status (fst (handle DEFAULT_ADMIN_TOKEN
                    (POST_collection "unknown" launch None) 0 empty_world))
     = 401%Z.
Proof. split; [apply unknown_unrecognized|reflexivity]. Qed.

Lemma unknown_collection_witness :
  fst (handle DEFAULT_ADMIN_TOKEN (POST_collection "unknown" launch None)
         0 one_news)
  = Raise (HTTPException 401 "Missing Authorization header")
  /\ (status (fst (handle DEFAULT_ADMIN_TOKEN
                     (POST_collection "unknown" launch None) 0 one_news))
      = 401
      \/ status (fst (handle DEFAULT_ADMIN_TOKEN
                        (POST_collection "unknown" launch None) 0 one_news))
         = 403)%Z.
Proof.
  apply (proj1 (proj2 (proj2
           (unknown_collection DEFAULT_ADMIN_TOKEN
              (POST_collection "unknown" launch None) 0 one_news
              unknown_unrecognized)))).
  - reflexivity.
  - reflexivity.
Defined.

(** ** Malformed identifiers *)

Lemma malformed_id_unhandled_witness :
  handle DEFAULT_ADMIN_TOKEN (GET_document "news" "not-an-id") 0 one_news
  = (Raise (ValueError "Invalid ObjectId"), one_news)
  /\ status (fst (handle DEFAULT_ADMIN_TOKEN (GET_document "news" "not-an-id")
                    0 one_news))
     = 500%Z.
Proof.
  apply (malformed_id_unhandled DEFAULT_ADMIN_TOKEN
           (GET_document "news" "not-an-id") "not-an-id" 0 one_news).
  - reflexivity.
  - apply news_recognized.
  - reflexivity.
  - left. reflexivity.
Defined.

(** ** Create *)

(** C1 as stated fails: a news item with neither title nor content, and one
    whose title is a number, are both accepted and stored. *)
Lemma create_without_required_fields :
  let wrong : document := <["title" := VInt 5]> {[ "content" := VStr "Hello" ]} in
  let post p := handle DEFAULT_ADMIN_TOKEN (POST_collection "news" p admin_header)
                  0 empty_world in
  missing_required NewsItem ∅ = ["title"; "content"]
  /\ conforms NewsItem wrong = false
  /\ docs "news" empty_world = []
  /\ status (fst (post ∅)) = 200%Z
  /\ docs "news" (snd (post ∅)) = [Stored 0%N ∅]
  /\ status (fst (post wrong)) = 200%Z
  /\ docs "news" (snd (post wrong)) = [Stored 0%N wrong].
Proof. by vm_compute. Qed.

Lemma create_stores_any_body_witness :
  fst (handle DEFAULT_ADMIN_TOKEN (POST_collection "news" ∅ admin_header)
         0 one_news)
  = Return (JObject {[ "id" := VStr (ObjectId.str (next_oid one_news)) ]})
  /\ docs "news" (snd (handle DEFAULT_ADMIN_TOKEN
                         (POST_collection "news" ∅ admin_header) 0 one_news))
     = (docs "news" one_news ++ [Stored (next_oid one_news) (base.delete "_id" ∅)])%list
  /\ (forall c', c' <> "news" ->
        docs c' (snd (handle DEFAULT_ADMIN_TOKEN
                        (POST_collection "news" ∅ admin_header) 0 one_news))
        = docs c' one_news).
Proof.
  apply (create_stores_any_body DEFAULT_ADMIN_TOKEN "news" ∅ admin_header
           0 one_news).
  - reflexivity.
  - apply news_recognized.
Defined.

(** C7 as stated fails on its scenario: the news item created with only a
    title and a content comes back without a [featured] field, although the
    model declares [featured = False]. *)
Lemma create_fills_no_default :
  fst (handle DEFAULT_ADMIN_TOKEN (POST_collection "news" launch admin_header)
         0 empty_world)
  = Return (JObject {[ "id" := VStr first_id ]})
  /\ with_defaults NewsItem launch !! "featured" = Some (VBool false)
  /\ exists d,
       fst (handle DEFAULT_ADMIN_TOKEN (GET_document "news" first_id) 0 one_news)
       = Return (JObject d)
       /\ d = <["id" := VStr first_id]> launch
       /\ d !! "featured" = None.
Proof.
  split; [by vm_compute|]. split; [by vm_compute|].
  exists (<["id" := VStr first_id]> launch). by vm_compute.
Qed.

Lemma create_then_get_witness :
  fst (handle DEFAULT_ADMIN_TOKEN (POST_collection "film" launch admin_header)
         0 one_news)
  = Return (JObject {[ "id" := VStr (ObjectId.str (next_oid one_news)) ]})
  /\ fst (handle DEFAULT_ADMIN_TOKEN
            (GET_document "film" (ObjectId.str (next_oid one_news))) 7
            (snd (handle DEFAULT_ADMIN_TOKEN
                    (POST_collection "film" launch admin_header) 0 one_news)))
     = Return (JObject (<["id" := VStr (ObjectId.str (next_oid one_news))]>
                          (base.delete "_id" launch))).
Proof.
  apply (create_then_get DEFAULT_ADMIN_TOKEN "film" launch admin_header
           0 7 one_news).
  - reflexivity.
  - by apply in_COLLECTIONS_recognized.
  - apply one_news_wf.
  - by vm_compute.
Defined.

(** ** Update *)

(** C5 as stated fails: a payload that names [updated_at] does not get the
    value it supplies; the server's clock reading is stored instead. *)
Lemma update_overrides_supplied_stamp :
  let p : document := {[ "updated_at" := VStr "2020-01-01" ]} in
  let w' := snd (handle DEFAULT_ADMIN_TOKEN
                   (PUT_document "news" first_id p admin_header) 5 one_news) in
  exists d,
    docs "news" w' = [d]
    /\ p !! "updated_at" = Some (VStr "2020-01-01")
    /\ fields d !! "updated_at" = Some (VDate 5)
    /\ fields d !! "updated_at" <> p !! "updated_at".
Proof.
  exists (Stored 0%N (<["updated_at" := VDate 5]> launch)).
  split_and!; [by vm_compute..|]. by vm_compute.
Qed.

Lemma update_merges_witness :
  let p : document := {[ "title" := VStr "Relaunch" ]} in
  let w' := snd (handle DEFAULT_ADMIN_TOKEN
                   (update_request true "news" first_id p admin_header)
                   5 one_news) in
  exists d',
    docs "news" w' = [d']
    /\ fields d' !! "title" = Some (VStr "Relaunch")
    /\ fields d' !! "content" = Some (VStr "Hello")
    /\ fields d' !! "updated_at" = Some (VDate 5).
Proof.
  intros p w'.
  pose proof (update_merges DEFAULT_ADMIN_TOKEN true "news" first_id p
                admin_header 5 one_news eq_refl news_recognized eq_refl) as H.
  cbv zeta in H. fold w' in H. rewrite one_news_docs in H.
  change (List.find (has_oid (ObjectId.of_str first_id)) [Stored 0%N launch])
    with (Some (Stored 0%N launch)) in H.
  destruct H as (l1 & l2 & d' & Hl & _ & Hl' & _ & Hk & _).
  destruct l1 as [|x l1]; cycle 1.
  { destruct l1; discriminate Hl. }
  injection Hl as <-. exists d'. rewrite Hl', !Hk. by vm_compute.
Defined.

(** C6 as stated fails: the record after the update was applied at time 1
    and again at time 2 is not the record after the first application. *)
Lemma update_twice_differs :
  let r := PUT_document "news" first_id {[ "title" := VStr "Relaunch" ]}
             admin_header in
  let once := snd (handle DEFAULT_ADMIN_TOKEN r 1 one_news) in
  let twice := snd (handle DEFAULT_ADMIN_TOKEN r 2 once) in
  docs "news" once
  = [Stored 0%N (<["updated_at" := VDate 1]> (<["title" := VStr "Relaunch"]> launch))]
  /\ docs "news" twice
     = [Stored 0%N (<["updated_at" := VDate 2]> (<["title" := VStr "Relaunch"]> launch))]
  /\ docs "news" twice <> docs "news" once.
Proof.
  split_and!; [by vm_compute..|].
  intros H.
  apply (f_equal (fun l => (l !! 0%nat) ≫= (fun d => fields d !! "updated_at"))) in H.
  vm_compute in H. discriminate H.
Qed.

(** ** Delete *)

Lemma delete_then_gone_witness :
  fst (handle DEFAULT_ADMIN_TOKEN (DELETE_document "news" first_id admin_header)
         3 one_news)
  = Return (JObject (<["status" := VStr "deleted"]> {[ "id" := VStr first_id ]}))
  /\ (forall t,
        fst (handle DEFAULT_ADMIN_TOKEN (GET_document "news" first_id) t
               (snd (handle DEFAULT_ADMIN_TOKEN
                       (DELETE_document "news" first_id admin_header)
                       3 one_news)))
        = Raise (HTTPException 404 "Not found"))
  /\ (forall t,
        fst (handle DEFAULT_ADMIN_TOKEN
               (DELETE_document "news" first_id admin_header) t
               (snd (handle DEFAULT_ADMIN_TOKEN
                       (DELETE_document "news" first_id admin_header)
                       3 one_news)))
        = Raise (HTTPException 404 "Not found")).
Proof.
  apply (delete_then_gone DEFAULT_ADMIN_TOKEN "news" first_id admin_header
           admin_header 3 one_news).
  - reflexivity.
  - reflexivity.
  - apply news_recognized.
  - reflexivity.
  - apply one_news_wf.
  - exists (Stored 0%N launch). by vm_compute.
Defined.

(** * Further properties *)

(** ** The auth gate and login *)

Lemma flush_parts word :
  Forall (fun c => PyStr.isspace c = false) word ->
  Forall (fun part => part <> "" /\ PyStr.no_space part) (PyStr.flush word).
Proof.
  intros Hw. destruct word as [|c word]; [constructor|].
  unfold PyStr.flush. constructor; [|constructor]. split.
  - intros He. apply (f_equal list_ascii_of_string) in He.
    rewrite list_ascii_of_string_of_list_ascii in He.
    apply (f_equal (@length _)) in He. rewrite length_rev in He. done.
  - unfold PyStr.no_space. rewrite list_ascii_of_string_of_list_ascii.
    apply Forall_forall. intros x Hx%list_elem_of_In%in_rev%list_elem_of_In.
    by apply (proj1 (Forall_forall _ _) Hw).
Qed.

Lemma split_aux_parts s word :
  Forall (fun c => PyStr.isspace c = false) word ->
  Forall (fun part => part <> "" /\ PyStr.no_space part) (PyStr.split_aux word s).
Proof.
  revert word. induction s as [|c s IH]; intros word Hw; cbn [PyStr.split_aux].
  - by apply flush_parts.
  - destruct (PyStr.isspace c) eqn:Hc.
    + apply Forall_app. split; [by apply flush_parts|]. apply IH. constructor.
    + apply IH. by constructor.
Qed.

Lemma split_parts s :
  Forall (fun part => part <> "" /\ PyStr.no_space part) (PyStr.split s).
Proof. apply split_aux_parts. constructor. Qed.

(** X1: the admin check passes exactly for a header that splits at
    whitespace into two parts, the first lower-casing to "bearer" and the
    second being the admin token; nothing else is accepted, and it never
    returns anything but [True]. *)
Theorem require_admin_accepts T a dep :
  require_admin T a = Return dep <->
  dep = true
  /\ exists h scheme,
       a = Some h /\ PyStr.split h = [scheme; T]
       /\ PyStr.lower scheme = "bearer".
Proof.
  split.
  - destruct a as [h|]; [|done]. destruct h as [|c h]; [done|].
    destruct (PyStr.split (String c h)) as [|s [|t [|u l]]] eqn:Hs;
      try (unfold require_admin; rewrite Hs; discriminate).
    rewrite (require_admin_parts _ _ _ _ Hs).
    destruct (String.eqb_spec (PyStr.lower s) "bearer") as [Hb|]; [|done].
    destruct (String.eqb_spec t T) as [->|]; [|done].
    intros [= <-]. split; [done|]. by exists (String c h), s.
  - intros (-> & h & scheme & -> & Hs & Hb).
    by rewrite (require_admin_parts _ _ _ _ Hs), Hb, !String.eqb_refl.
Qed.

(** X2: when the configured admin token is empty or contains whitespace, no
    Authorization header at all passes the admin check: every write request
    is then refused. *)
Theorem unusable_admin_token T a :
  T = "" \/ ~ PyStr.no_space T ->
  require_admin T a <> Return true.
Proof.
  intros HT Ha. apply require_admin_accepts in Ha as (_ & h & s & _ & Hs & _).
  pose proof (split_parts h) as Hp. rewrite Hs in Hp.
  apply Forall_cons in Hp as [_ Hp]. apply Forall_cons in Hp as [[Hne Hns] _].
  destruct HT as [->|HT]; [done|by apply HT].
Qed.

(** Login succeeds exactly when both the e-mail and the password equal the
    configured ones, character for character; it then hands out the
    configured admin token with the role "admin"; everything else is
    answered 401. *)
Lemma login_succeeds_iff E P T payload :
  (Auth.email payload = E /\ Auth.password payload = P ->
   Auth.login E P T payload
   = Return {| Auth.token := T; Auth.role := "admin" |})
  /\ (~ (Auth.email payload = E /\ Auth.password payload = P) ->
      Auth.login E P T payload
      = Raise (HTTPException 401 "Invalid credentials")).
Proof.
  unfold Auth.login.
  destruct (String.eqb_spec (Auth.email payload) E),
           (String.eqb_spec (Auth.password payload) P); cbn; intuition.
Qed.

(** X3: the token that a successful login returns, sent back as
    [Bearer <token>], passes the admin check, provided the configured token
    is one non-empty word. *)
Theorem login_token_authorizes E P T payload resp :
  T <> "" -> PyStr.no_space T ->
  Auth.login E P T payload = Return resp ->
  require_admin T (Some ("Bearer " ++ Auth.token resp)) = Return true.
Proof.
  intros HT Hns. unfold Auth.login. destruct (_ && _); [|done].
  intros [= <-]. cbn [Auth.token].
  by apply (any_casing_accepted T "Bearer").
Qed.

(** ** What a request can be answered with, and when the data change *)

Lemma endpoint_outcome r dep now w :
  match fst (endpoint r dep now w) with
  | Return _ => True
  | Raise (HTTPException s _) =>
      s = 404%Z /\ same_data w (snd (endpoint r dep now w))
  | Raise (ValueError _) =>
      (exists i, doc_id_of r = Some i /\ ObjectId.is_valid i = false)
      /\ same_data w (snd (endpoint r dep now w))
  end
  /\ (is_write r = false -> same_data w (snd (endpoint r dep now w))).
Proof.
  destruct r; cbn [endpoint is_write doc_id_of];
    unfold list_documents, get_document, create, update, delete,
      get_collection, bind, lift, ret, raise, PyObjectId.validate,
      Coll.find_one, Coll.update_one, Coll.delete_one, get_documents,
      create_document;
    repeat (case_match; simplify_eq/=); (split; [|try done]);
    try done; try (split; [|done]); eauto.
  all: destruct (ObjectId.is_valid doc_id) eqn:Hv; [done|eauto].
Qed.


(** X5: a request that is answered with an error, whatever the error, leaves
    the stored data as they were. *)
Theorem error_changes_nothing T r now w e :
  fst (handle T r now w) = Raise e ->
  same_data w (snd (handle T r now w)).
Proof.
  destruct (is_write r) eqn:Hr.
  - rewrite (handle_write _ _ _ _ Hr).
    destruct (require_admin T (authorization_of r)) as [dep|e0]; [|done].
    destruct (endpoint_outcome r dep now w) as [Ho _]. intros He.
    rewrite He in Ho. destruct e; by destruct Ho.
  - rewrite (handle_read _ _ _ _ Hr). intros _.
    by apply endpoint_outcome.
Qed.

(** X6: the read routes never change the stored data, whatever they
    answer. *)
Theorem reads_change_nothing T r now w :
  is_write r = false -> same_data w (snd (handle T r now w)).
Proof.
  intros Hr. rewrite (handle_read _ _ _ _ Hr). by apply endpoint_outcome.
Qed.

(** ** What the writes to one record do to the others *)








(** X8: an update never adds, removes or reorders records and never changes
    an identifier: in every collection the identifiers are afterwards what
    they were, and no fresh identifier is used up. *)
Theorem update_keeps_records T patch c i p a now w c' :
  let w' := snd (handle T (update_request patch c i p a) now w) in
  oid <$> docs c' w' = oid <$> docs c' w /\ next_oid w' = next_oid w.
Proof.
  intros w'. subst w'.
  assert (is_write (update_request patch c i p a) = true) as Hw
    by (by destruct patch).
  rewrite (handle_write _ _ _ _ Hw).
  destruct (require_admin T _) as [dep|e]; [|done].
  assert (endpoint (update_request patch c i p a) dep now w
          = update c i p dep now w) as -> by (by destruct patch).
  destruct (decide (c ∈ recognized)) as [Hc|Hc]; cycle 1.
  { by destruct (update_stops c i p dep now w (or_introl Hc)) as [e ->]. }
  destruct (ObjectId.is_valid i) eqn:Hv; cycle 1.
  { by destruct (update_stops c i p dep now w (or_intror Hv)) as [e ->]. }
  rewrite (update_run _ _ _ _ _ _ Hc Hv). cbv zeta.
  destruct (set_first _ _ _) as [l'|] eqn:Hs; [|done].
  cbn [snd]. rewrite !docs_log. split; [|done].
  destruct (decide (c' = c)) as [->|Hc'].
  - rewrite docs_set_docs. by apply set_first_oids in Hs.
  - by rewrite docs_set_docs_ne.
Qed.

(** X9: an authorized delete by a well-formed id removes the first record
    with that identifier and nothing else: the records before and after it
    keep their order, other collections are untouched and no identifier is
    used up; when no record has the identifier the answer is 404 and the
    data are unchanged. *)
Theorem delete_removes_one T c i a now w :
  require_admin T a = Return true ->
  c ∈ recognized ->
  ObjectId.is_valid i = true ->
  let o := ObjectId.of_str i in
  let w' := snd (handle T (DELETE_document c i a) now w) in
  match List.find (has_oid o) (docs c w) with
  | None =>
      fst (handle T (DELETE_document c i a) now w)
      = Raise (HTTPException 404 "Not found")
      /\ same_data w w'
  | Some d =>
      exists l1 l2,
        docs c w = (l1 ++ d :: l2)%list
        /\ List.find (has_oid o) l1 = None
        /\ docs c w' = (l1 ++ l2)%list
        /\ (forall c', c' <> c -> docs c' w' = docs c' w)
        /\ next_oid w' = next_oid w
  end.
Proof.
  intros Ha Hc Hv o w'. subst w'.
  rewrite (handle_passed T (DELETE_document c i a)) by (by right).
  cbn [endpoint]. rewrite (delete_run _ _ _ _ Hc Hv). fold o.
  destruct (List.find (has_oid o) (docs c w)) as [d|] eqn:Hf.
  - destruct (find_split _ _ _ Hf) as (l1 & l2 & Hl & Hd & Hn).
    rewrite Hl, (delete_first_Some _ _ _ _ Hn Hd). exists l1, l2.
    cbn [snd]. rewrite docs_log, docs_set_docs. split_and!; try done.
    intros c' Hc'. by rewrite docs_log, docs_set_docs_ne.
  - by rewrite (delete_first_None _ _ Hf).
Qed.

(** X10: a get that follows a successful update of the same record, by the
    same id, answers exactly what the update answered. *)
Theorem read_your_update T patch c i p a now t w b :
  fst (handle T (update_request patch c i p a) now w) = Return b ->
  fst (handle T (GET_document c i) t
         (snd (handle T (update_request patch c i p a) now w)))
  = Return b.
Proof.
  assert (is_write (update_request patch c i p a) = true) as Hw
    by (by destruct patch).
  rewrite (handle_write _ _ _ _ Hw).
  destruct (require_admin T _) as [dep|e]; [|done].
  assert (endpoint (update_request patch c i p a) dep now w
          = update c i p dep now w) as -> by (by destruct patch).
  destruct (decide (c ∈ recognized)) as [Hc|Hc]; cycle 1.
  { by destruct (update_stops c i p dep now w (or_introl Hc)) as [e ->]. }
  destruct (ObjectId.is_valid i) eqn:Hv; cycle 1.
  { by destruct (update_stops c i p dep now w (or_intror Hv)) as [e ->]. }
  rewrite (update_run _ _ _ _ _ _ Hc Hv). cbv zeta.
  set (o := ObjectId.of_str i).
  destruct (List.find (has_oid o) (docs c w)) as [d|] eqn:Hf.
  - destruct (find_split _ _ _ Hf) as (l1 & l2 & Hl & Hd & Hn).
    rewrite Hl, (set_first_Some _ _ _ _ _ Hn Hd). cbn [fst snd].
    rewrite (find_app_first _ _ _ _ Hn) by done. intros [= <-].
    rewrite handle_read by done.
    rewrite (get_document_run _ _ _ _ Hc Hv). cbn [fst]. fold o.
    rewrite !docs_log, docs_set_docs.
    by rewrite (find_app_first _ _ _ _ Hn).
  - by rewrite (set_first_None _ _ _ Hf).
Qed.

(** ** Identifiers in and out *)

Lemma hex_val_lt c : ObjectId.is_hex c = true -> (ObjectId.hex_val c < 16)%N.
Proof. destruct c as [[] [] [] [] [] [] [] []]; by vm_compute. Qed.

Lemma hex_char_hex_val c :
  ObjectId.is_hex c = true ->
  ObjectId.hex_char (ObjectId.hex_val c) = PyStr.lower_char c.
Proof. destruct c as [[] [] [] [] [] [] [] []]; by vm_compute. Qed.

Lemma from_hex_value s acc :
  forallb ObjectId.is_hex (list_ascii_of_string s) = true ->
  ObjectId.from_hex acc s
  = (acc * 16 ^ N.of_nat (String.length s) + ObjectId.from_hex 0 s)%N
  /\ (ObjectId.from_hex 0 s < 16 ^ N.of_nat (String.length s))%N.
Proof.
  revert acc. induction s as [|c s IH]; intros acc.
  - intros _. cbn. lia.
  - cbn [list_ascii_of_string forallb]. intros [Hc Hs]%andb_true_iff.
    cbn [ObjectId.from_hex String.length].
    rewrite Nat2N.inj_succ, N.pow_succ_r'.
    destruct (IH (16 * acc + ObjectId.hex_val c)%N Hs) as [-> _].
    destruct (IH (16 * 0 + ObjectId.hex_val c)%N Hs) as [-> Hlt].
    pose proof (hex_val_lt c Hc). split; nia.
Qed.

Lemma to_hex_front k n tail :
  ObjectId.to_hex (S k) n tail
  = String (ObjectId.hex_char ((n / 16 ^ N.of_nat k) mod 16)%N)
      (ObjectId.to_hex k n tail).
Proof.
  revert n tail. induction k as [|k IH]; intros n tail.
  - cbn [ObjectId.to_hex]. change (16 ^ N.of_nat 0)%N with 1%N.
    by rewrite N.div_1_r.
  - change (ObjectId.to_hex (S (S k)) n tail)
      with (ObjectId.to_hex (S k) (n / 16)
              (String (ObjectId.hex_char (n mod 16)) tail)).
    rewrite IH. cbn [ObjectId.to_hex]. do 3 f_equal.
    rewrite Nat2N.inj_succ, N.pow_succ_r', N.Div0.div_div. done.
Qed.

Lemma to_hex_from_hex s acc tail :
  forallb ObjectId.is_hex (list_ascii_of_string s) = true ->
  ObjectId.to_hex (String.length s) (ObjectId.from_hex acc s) tail
  = PyStr.lower s ++ tail.
Proof.
  revert acc. induction s as [|c s IH]; intros acc; [done|].
  cbn [list_ascii_of_string forallb]. intros [Hc Hs]%andb_true_iff.
  cbn [String.length PyStr.lower]. rewrite append_cons, to_hex_front.
  cbn [ObjectId.from_hex]. rewrite (IH _ Hs). f_equal.
  destruct (from_hex_value s (16 * acc + ObjectId.hex_val c)%N Hs) as [-> Hlt].
  pose proof (hex_val_lt c Hc).
  rewrite N.div_add_l by lia. rewrite N.div_small by done.
  rewrite N.add_0_r.
  replace (16 * acc + ObjectId.hex_val c)%N
    with (ObjectId.hex_val c + acc * 16)%N by lia.
  rewrite N.Div0.mod_add, N.mod_small by done.
  by apply hex_char_hex_val.
Qed.

Lemma append_empty (s : string) : s ++ "" = s.
Proof. induction s as [|c s IH]; [done|]. by rewrite append_cons, IH. Qed.

Lemma fromhex_digits n s bs :
  (String.length s <= n)%nat ->
  ObjectId.fromhex s = Some bs ->
  String.length (ObjectId.digits s) = (2 * length bs)%nat
  /\ forallb ObjectId.is_hex (list_ascii_of_string (ObjectId.digits s)) = true
  /\ (forall acc,
        ObjectId.value_of acc bs = ObjectId.from_hex acc (ObjectId.digits s))
  /\ (String.length (ObjectId.digits s) <= String.length s)%nat
  /\ (String.length (ObjectId.digits s) = String.length s ->
      ObjectId.digits s = s).
Proof.
  revert s bs. induction n as [|n IH]; intros s bs Hn.
  - destruct s; [|cbn in Hn; lia]. by intros [= <-].
  - destruct s as [|c s]; [by intros [= <-]|].
    cbn [ObjectId.fromhex ObjectId.digits String.length] in *.
    destruct (ObjectId.is_ascii_space c) eqn:Hc.
    + intros Hf. destruct (IH s bs ltac:(lia) Hf) as (H1 & H2 & H3 & H4 & _).
      split_and!; [done|done|done|lia|lia].
    + destruct s as [|c' s]; [done|].
      destruct (ObjectId.is_hex c) eqn:Hh; [|done].
      destruct (ObjectId.is_hex c') eqn:Hh'; [|done]. cbn [andb].
      destruct (ObjectId.fromhex s) as [bs'|] eqn:Hf; [|done].
      cbn. intros [= <-]. cbn [String.length] in Hn.
      destruct (IH s bs' ltac:(lia) Hf) as (H1 & H2 & H3 & H4 & H5).
      rewrite (hex_not_space _ Hh'). cbn [String.length list_ascii_of_string
        forallb length ObjectId.from_hex]. rewrite Hh, Hh', H2.
      split_and!; [lia|done| |lia|].
      * intros acc. unfold ObjectId.value_of in *. cbn [fold_left].
        rewrite H3. f_equal. lia.
      * intros He. rewrite H5; [done|lia].
Qed.

Lemma str_of_str_digits v :
  ObjectId.is_valid v = true ->
  ObjectId.str (ObjectId.of_str v) = PyStr.lower (ObjectId.digits v)
  /\ ((ObjectId.of_str v < ObjectId.bound)%N <-> ObjectId.digits v = v).
Proof.
  unfold ObjectId.is_valid, ObjectId.of_str.
  intros [Hl Hf]%andb_true_iff. apply Nat.eqb_eq in Hl.
  destruct (ObjectId.fromhex v) as [bs|] eqn:Hbs; [|done]. clear Hf.
  destruct (fromhex_digits 24 v bs ltac:(lia) Hbs) as (H1 & H2 & H3 & H4 & H5).
  set (ds := ObjectId.digits v) in *.
  destruct (from_hex_value ds 0 H2) as [_ Hlt].
  assert (ObjectId.from_hex 0 ds < ObjectId.bound)%N as Hb.
  { eapply N.lt_le_trans; [exact Hlt|]. unfold ObjectId.bound.
    apply N.pow_le_mono_r; lia. }
  unfold ObjectId.of_bytes, ObjectId.str. rewrite H3.
  destruct (Nat.eqb_spec (length bs) 12) as [Hk|Hk].
  - rewrite (proj2 (N.ltb_lt _ _) Hb).
    replace 24%nat with (String.length ds) by lia.
    rewrite (to_hex_from_hex _ _ _ H2), append_empty.
    split; [done|]. split; [intros _; apply H5; lia|done].
  - set (q := (N.of_nat (length bs) + 1)%N).
    assert ((ObjectId.bound * q + ObjectId.from_hex 0 ds) / ObjectId.bound = q)%N
      as Hq.
    { rewrite N.mul_comm, N.div_add_l by done. rewrite N.div_small by done.
      lia. }
    assert ((ObjectId.bound * q + ObjectId.from_hex 0 ds) mod ObjectId.bound
            = ObjectId.from_hex 0 ds)%N as Hm.
    { rewrite N.add_comm, N.mul_comm, N.Div0.mod_add. by apply N.mod_small. }
    assert (ObjectId.bound <= ObjectId.bound * q + ObjectId.from_hex 0 ds)%N
      as Hge by (unfold q; nia).
    rewrite (proj2 (N.ltb_ge _ _) Hge), Hq, Hm.
    replace (2 * N.to_nat (q - 1))%nat with (String.length ds)
      by (unfold q; lia).
    rewrite (to_hex_from_hex _ _ _ H2), append_empty.
    split; [done|]. split; [lia|].
    intros Hd. rewrite Hd in H1. lia.
Qed.

Lemma str_of_str v :
  ObjectId.is_valid v = true ->
  (ObjectId.of_str v < ObjectId.bound)%N ->
  ObjectId.str (ObjectId.of_str v) = PyStr.lower v.
Proof.
  intros Hv Hb. destruct (str_of_str_digits v Hv) as [-> Hd].
  by rewrite (proj1 Hd Hb).
Qed.

Lemma find_short_id o (l : list stored) :
  ~ (o < ObjectId.bound)%N -> List.find (has_oid o) l = None.
Proof.
  intros Ho. induction l as [|x l IH]; [done|]. cbn [List.find].
  destruct (has_oid o x) eqn:Hh; [|done]. by apply has_oid_bound in Hh.
Qed.

(** An id of 24 characters that the validator accepts with whitespace in it
    names no record: a get by it is answered 404. *)
Lemma spaced_id_not_found T c i now w :
  c ∈ recognized -> ObjectId.is_valid i = true -> ObjectId.digits i <> i ->
  fst (handle T (GET_document c i) now w)
  = Raise (HTTPException 404 "Not found").
Proof.
  intros Hc Hv Hd. rewrite handle_read by done.
  rewrite (get_document_run _ _ _ _ Hc Hv). cbn [fst].
  rewrite find_short_id; [done|].
  intros Hb. by apply (proj2 (str_of_str_digits i Hv)) in Hb.
Qed.

(** X11: the identifier codec round-trips. A 12-byte identifier rendered and
    validated again is the same identifier. An id string that the validator
    accepts, rendered again, is its hex digits in lower case with the
    whitespace dropped; it gives a 12-byte identifier, one that a stored
    record can have, exactly when it has no whitespace, and then the
    rendering is the string itself in lower case. *)
Theorem identifier_round_trip :
  (forall o, (o < ObjectId.bound)%N ->
             PyObjectId.validate (ObjectId.str o) = Return o)
  /\ (forall v o,
        PyObjectId.validate v = Return o ->
        ObjectId.str o = PyStr.lower (ObjectId.digits v)
        /\ ((o < ObjectId.bound)%N <-> ObjectId.digits v = v)).
Proof.
  split.
  - intros o Ho. unfold PyObjectId.validate.
    by rewrite str_is_valid, of_str_str.
  - intros v o. unfold PyObjectId.validate.
    destruct (ObjectId.is_valid v) eqn:Hv; [|done]. intros [= <-].
    by apply str_of_str_digits.
Qed.

(** X12: whatever a get of one document answers with 200 is a stored record
    of that collection with the requested identifier: the answer carries the
    requested id in lower case under ["id"], has no ["_id"] key, and agrees
    with the stored record on every other field (a stored field called
    ["id"] is hidden by the identifier). *)
Theorem get_document_sound T c i now w b :
  fst (handle T (GET_document c i) now w) = Return b ->
  c ∈ recognized
  /\ ObjectId.is_valid i = true
  /\ exists d m,
       d ∈ docs c w
       /\ oid d = ObjectId.of_str i
       /\ b = JObject m
       /\ m !! "id" = Some (VStr (PyStr.lower i))
       /\ m !! "_id" = None
       /\ forall k, k <> "id" -> k <> "_id" -> m !! k = fields d !! k.
Proof.
  rewrite handle_read by done. cbn [endpoint].
  destruct (decide (c ∈ recognized)) as [Hc|Hc]; cycle 1.
  { unfold get_document, bind. by rewrite (get_collection_unknown _ _ Hc). }
  destruct (ObjectId.is_valid i) eqn:Hv; cycle 1.
  { unfold get_document, bind, lift, PyObjectId.validate.
    by rewrite (get_collection_known _ _ Hc), Hv. }
  pose proof (get_document_run c i now w Hc Hv) as Hrun.
  cbn [endpoint] in Hrun. rewrite Hrun. cbn [fst].
  destruct (List.find _ _) as [d|] eqn:Hf; [|done].
  intros [= <-]. split_and!; [done..|].
  destruct (find_split _ _ _ Hf) as (l1 & l2 & Hl & Hd & _).
  pose proof (has_oid_bound _ _ Hd) as Hb. apply has_oid_eq in Hd.
  eexists d, _. split_and!; [|done|reflexivity|..].
  - rewrite Hl. apply elem_of_app. right. by left.
  - by rewrite lookup_insert_eq, Hd, (str_of_str _ Hv Hb).
  - rewrite lookup_insert_ne by done. apply lookup_delete_eq.
  - intros k Hk Hk'. by rewrite lookup_insert_ne, lookup_delete_ne.
Qed.

(** ** The store over time *)

Lemma find_unique (l : list stored) d :
  (oid d < ObjectId.bound)%N ->
  NoDup (oid <$> l) -> d ∈ l -> List.find (has_oid (oid d)) l = Some d.
Proof.
  intros Hb. induction l as [|x l IH]; [by intros _ ?%elem_of_nil|].
  rewrite fmap_cons. intros [Hx Hnd]%NoDup_cons [->|Hd]%elem_of_cons.
  - cbn [List.find]. by rewrite (has_oid_intro _ _ eq_refl Hb).
  - cbn [List.find]. destruct (has_oid (oid d) x) eqn:Hh; [|by apply IH].
    apply has_oid_eq in Hh. destruct Hx. rewrite Hh.
    by apply list_elem_of_fmap_2.
Qed.

(** X14: the list and the single get agree: every record that a list of a
    collection returns can be fetched by the id it is listed under, and the
    get answers that same record. The database is well formed and its
    identifiers fit 24 hex digits. ([get_documents] is modelled from its
    contract.) *)
Theorem listed_records_can_be_fetched T c limit now t w items m i :
  wf w ->
  (next_oid w <= ObjectId.bound)%N ->
  fst (handle T (GET_collection c limit) now w) = Return (JArray items) ->
  Some m ∈ items ->
  m !! "id" = Some (VStr i) ->
  fst (handle T (GET_document c i) t
         (snd (handle T (GET_collection c limit) now w)))
  = Return (JObject m).
Proof.
  intros Hw Hb. rewrite !(handle_read T (GET_collection c limit)) by done.
  cbn [endpoint]. unfold list_documents, bind.
  destruct (decide (c ∈ recognized)) as [Hc|Hc]; cycle 1.
  { by rewrite (get_collection_unknown _ _ Hc). }
  rewrite (get_collection_known _ _ Hc). unfold get_documents, ret.
  cbn [fst snd]. intros [= <-] Hm Hi.
  apply list_elem_of_In, in_map_iff in Hm as (d & Hd & Hin).
  apply list_elem_of_In in Hin.
  assert (d ∈ docs c w) as Hdw by (by apply (subseteq_take (Z.to_nat limit))).
  cbn [to_obj] in Hd. injection Hd as <-.
  rewrite lookup_insert_eq in Hi. injection Hi as <-.
  destruct (Hw c) as [Hnd Hlt].
  assert (oid d < ObjectId.bound)%N as Hod.
  { specialize (Hlt (oid d) (list_elem_of_fmap_2 _ _ _ Hdw)). lia. }
  rewrite handle_read by done.
  rewrite (get_document_run _ _ _ _ Hc (str_is_valid _ Hod)). cbn [fst].
  rewrite (of_str_str _ Hod), docs_log.
  by rewrite (find_unique _ _ Hod Hnd Hdw).
Qed.

(** ** The diagnostic endpoint *)

Lemma substring_prefix n s :
  (String.length (substring 0 n s) <= n)%nat
  /\ String.prefix (substring 0 n s) s = true.
Proof.
  revert s. induction n as [|n IH]; intros s.
  - destruct s; cbn; split; (lia || done).
  - destruct s as [|c s]; [cbn; split; (lia || done)|].
    cbn [substring String.length String.prefix]. destruct (IH s) as [Hl Hp].
    split; [lia|]. by destruct (ascii_dec c c).
Qed.

(** X15: the diagnostic report always has its six entries and says that the
    backend runs. It says [Connected] exactly when the database handle
    exists and the listing of collections succeeded, and then carries the
    listed names; otherwise its collections are empty. When the listing
    fails, the report quotes at most the first 80 characters of the error
    text. *)
Theorem test_database_report e :
  let r := Diagnostics.test_database e in
  dom r = list_to_set [ "backend"; "database"; "database_url"; "database_name";
                        "connection_status"; "collections" ]
  /\ r !! "backend" = Some (VStr "✅ Running")
  /\ (r !! "connection_status" = Some (VStr "Connected") <->
      Diagnostics.db_present e = true
      /\ exists names, Diagnostics.list_collection_names e
                       = Diagnostics.Listed names)
  /\ (forall names,
        Diagnostics.db_present e = true ->
        Diagnostics.list_collection_names e = Diagnostics.Listed names ->
        r !! "collections" = Some (VList (VStr <$> names)))
  /\ (r !! "connection_status" <> Some (VStr "Connected") ->
      r !! "connection_status" = Some (VStr "Not Connected")
      /\ r !! "collections" = Some (VList []))
  /\ (forall str_e,
        Diagnostics.db_present e = true ->
        Diagnostics.list_collection_names e = Diagnostics.Failed str_e ->
        exists quoted,
          r !! "database" = Some (VStr ("⚠️ Connected but error: " ++ quoted))
          /\ (String.length quoted <= 80)%nat
          /\ String.prefix quoted str_e = true).
Proof.
  intros r. subst r. unfold Diagnostics.test_database.
  destruct e as [present url name listing]. cbn.
  destruct present, listing as [names|msg]; cbn.
  all: split; [rewrite !dom_insert_L, dom_singleton_L; set_solver|].
  all: split; [by simplify_map_eq|].
  all: split; [split; [try by simplify_map_eq|intros [? [? ?]]; by simplify_map_eq]|].
  all: try (intros _; split; [done|by eexists]).
  all: split; [intros ? ? ?; by simplify_map_eq|].
  all: split; [intros ?; by simplify_map_eq|].
  all: intros str_e ? [= <-] || intros str_e ? ?; try done.
  exists (substring 0 80 msg). split; [by simplify_map_eq|].
  apply substring_prefix.
Qed.

(** ** Concrete runs of the further properties *)

Lemma unusable_admin_token_witness :
  require_admin "two words" (Some "Bearer two words") <> Return true.
Proof.
  apply (unusable_admin_token "two words" (Some "Bearer two words")).
  right. unfold PyStr.no_space. cbn [list_ascii_of_string].
  intros H. do 3 apply Forall_cons in H as [_ H].
  apply Forall_cons in H as [H _]. vm_compute in H. discriminate H.
Defined.

Lemma login_token_authorizes_witness :
  require_admin DEFAULT_ADMIN_TOKEN
    (Some ("Bearer " ++ Auth.token {| Auth.token := DEFAULT_ADMIN_TOKEN;
                                       Auth.role := "admin" |}))
  = Return true.
Proof.
  apply (login_token_authorizes Auth.DEFAULT_ADMIN_EMAIL
           Auth.DEFAULT_ADMIN_PASSWORD DEFAULT_ADMIN_TOKEN
           {| Auth.email := Auth.DEFAULT_ADMIN_EMAIL;
              Auth.password := Auth.DEFAULT_ADMIN_PASSWORD |}).
  - discriminate.
  - unfold PyStr.no_space. cbn [list_ascii_of_string DEFAULT_ADMIN_TOKEN].
    repeat constructor.
  - reflexivity.
Defined.

Lemma error_changes_nothing_witness :
  same_data one_news
    (snd (handle DEFAULT_ADMIN_TOKEN
            (DELETE_document "news" "000000000000000000000001" admin_header)
            0 one_news)).
Proof.
  apply (error_changes_nothing DEFAULT_ADMIN_TOKEN
           (DELETE_document "news" "000000000000000000000001" admin_header)
           0 one_news (HTTPException 404 "Not found")).
  by vm_compute.
Defined.

Lemma reads_change_nothing_witness :
  same_data one_news
    (snd (handle DEFAULT_ADMIN_TOKEN (GET_collection "news" 100) 0 one_news)).
Proof.
  apply (reads_change_nothing DEFAULT_ADMIN_TOKEN (GET_collection "news" 100)
           0 one_news).
  reflexivity.
Defined.


Lemma delete_removes_one_witness :
  exists l1 l2,
    docs "news" one_news = (l1 ++ Stored 0%N launch :: l2)%list
    /\ docs "news"
         (snd (handle DEFAULT_ADMIN_TOKEN
                 (DELETE_document "news" first_id admin_header) 3 one_news))
       = (l1 ++ l2)%list.
Proof.
  pose proof (delete_removes_one DEFAULT_ADMIN_TOKEN "news" first_id
                admin_header 3 one_news eq_refl news_recognized eq_refl) as H.
  cbv zeta in H. rewrite one_news_docs in H.
  change (List.find (has_oid (ObjectId.of_str first_id)) [Stored 0%N launch])
    with (Some (Stored 0%N launch)) in H.
  destruct H as (l1 & l2 & Hl & _ & Hl' & _).
  exists l1, l2. by rewrite one_news_docs.
Defined.

Lemma read_your_update_witness :
  fst (handle DEFAULT_ADMIN_TOKEN (GET_document "news" first_id) 9
         (snd (handle DEFAULT_ADMIN_TOKEN
                 (update_request false "news" first_id
                    {[ "title" := VStr "Relaunch" ]} admin_header)
                 5 one_news)))
  = fst (handle DEFAULT_ADMIN_TOKEN
           (update_request false "news" first_id
              {[ "title" := VStr "Relaunch" ]} admin_header)
           5 one_news).
Proof.
  destruct (fst (handle DEFAULT_ADMIN_TOKEN
                   (update_request false "news" first_id
                      {[ "title" := VStr "Relaunch" ]} admin_header)
                   5 one_news)) as [b|e] eqn:Hb.
  - by apply (read_your_update DEFAULT_ADMIN_TOKEN false "news" first_id
                {[ "title" := VStr "Relaunch" ]} admin_header 5 9 one_news b).
  - vm_compute in Hb. discriminate Hb.
Defined.

Lemma get_document_sound_witness :
  "news" ∈ recognized
  /\ ObjectId.is_valid first_id = true
  /\ exists d m,
       d ∈ docs "news" one_news
       /\ oid d = ObjectId.of_str first_id
       /\ JObject (<["id" := VStr first_id]> launch) = JObject m
       /\ m !! "id" = Some (VStr (PyStr.lower first_id))
       /\ m !! "_id" = None
       /\ forall k, k <> "id" -> k <> "_id" -> m !! k = fields d !! k.
Proof.
  apply (get_document_sound DEFAULT_ADMIN_TOKEN "news" first_id 0 one_news).
  by vm_compute.
Defined.

Lemma listed_records_can_be_fetched_witness :
  fst (handle DEFAULT_ADMIN_TOKEN (GET_document "news" first_id) 9
         (snd (handle DEFAULT_ADMIN_TOKEN (GET_collection "news" 100) 0 one_news)))
  = Return (JObject (<["id" := VStr first_id]> launch)).
Proof.
  apply (listed_records_can_be_fetched DEFAULT_ADMIN_TOKEN "news" 100 0 9
           one_news [Some (<["id" := VStr first_id]> launch)]
           (<["id" := VStr first_id]> launch) first_id).
  - apply one_news_wf.
  - by vm_compute.
  - by vm_compute.
  - by left.
  - by vm_compute.
Defined.


(** ** Identifiers with whitespace *)

(** The validator takes an id of 24 characters with blanks between its
    byte pairs; it holds 8 bytes, renders as 16 digits and names no record,
    so the get is answered 404. An id that is no hex at all is refused. *)
Example spaced_id_runs :
  let i := "00 00 00 00 00 00 00 00 " in
  ObjectId.is_valid i = true
  /\ ObjectId.digits i = "0000000000000000"
  /\ ObjectId.str (ObjectId.of_str i) = "0000000000000000"
  /\ fst (handle DEFAULT_ADMIN_TOKEN (GET_document "news" i) 0 one_news)
     = Raise (HTTPException 404 "Not found")
  /\ ObjectId.is_valid "not-an-id" = false
  /\ ObjectId.is_valid "00000000000000000000000g" = false
  /\ ObjectId.is_valid "0 0000000000000000000000" = false.
Proof. by vm_compute. Qed.

(** A record that holds a number JSON cannot write is returned by the
    handler but not rendered: the answer is 500. *)
Example non_finite_runs :
  let nan : document := {[ "score" := VFloat 9221120237041090560 ]} in
  let w := snd (handle DEFAULT_ADMIN_TOKEN
                  (POST_collection "news" nan admin_header) 0 empty_world) in
  fst (handle DEFAULT_ADMIN_TOKEN (GET_document "news" first_id) 0 w)
  = Return (JObject (<["id" := VStr first_id]> nan))
  /\ status (fst (handle DEFAULT_ADMIN_TOKEN (GET_document "news" first_id) 0 w))
     = 500%Z
  /\ status (fst (handle DEFAULT_ADMIN_TOKEN (GET_document "news" first_id)
                    0 one_news))
     = 200%Z.
Proof. by vm_compute. Qed.
